(** * Configuration validators of the cluster CLI

    A shallow embedding of

    - [pcluster/validators/ebs_validators.py]
    - [pcluster/validators/s3_validators.py]
    - [pcluster/aws/cfn.py] ([CfnClient.list_pcluster_stacks])
    - [pcluster/schemas/imagebuilder_schema.py]
      ([ImageSchema.validate_reserved_tag])

    Validators are stateful objects: [_validate] appends to the list
    [self._failures] and may leave through an exception.  They are embedded
    in a state-and-exception monad whose state is that list. *)

From Stdlib Require Import ZArith QArith String Ascii List Lia.
From stdpp Require Import base option list strings gmap pretty.

Local Open Scope string_scope.
Local Open Scope list_scope.
Local Open Scope Z_scope.

(** ** The fragment of the Python runtime the sources rely on *)

Module Py.

(** The [response] attribute of a botocore [ClientError]: a dict whose
    ["Error"] entry, when present, is a dict with optional ["Code"] and
    ["Message"] entries. *)
Record ErrorDict := { Code : option string; Message : option string }.
Record Response := { Error : option ErrorDict }.

(** Exceptions that occur in the embedded code.  [OtherException] stands
    for any further class derived from [Exception] (a connection error of
    the SDK, a [RuntimeError], ...) with its [str()]; [BaseException] for
    the classes that do not derive from [Exception] ([KeyboardInterrupt],
    [SystemExit], [GeneratorExit]). *)
Inductive exn :=
| ClientError (response : Response)
| HTTPError (code : Z) (reason : string)
| URLError (reason : string)
| ValueError (msg : string)
| AttributeError (msg : string)
| KeyError (key : string)
| ZeroDivisionError (msg : string)
| ValidationError (message : string)
| OtherException (cls msg : string)
| BaseException (cls : string).

(** [isinstance(e, Exception)] *)
Definition is_Exception (e : exn) : bool :=
  match e with
  | BaseException _ => false
  | _ => true
  end.

(** [isinstance(e, ClientError)] *)
Definition is_ClientError (e : exn) : bool :=
  match e with
  | ClientError _ => true
  | _ => false
  end.

(** [str(e)] for the exceptions that get formatted into a message; for
    [ClientError] botocore fills a fixed template from the response. *)
Definition str_opt (o : option string) : string := default "None" o.

Definition exn_str (e : exn) : string :=
  match e with
  | ClientError r =>
      let err := default {| Code := None; Message := None |} (Error r) in
      "An error occurred (" +:+ default "Unknown" (Code err) +:+ "): "
        +:+ default "Unknown" (Message err)
  | HTTPError code reason => "HTTP Error " +:+ pretty code +:+ ": " +:+ reason
  | URLError reason => "<urlopen error " +:+ reason +:+ ">"
  | ValueError msg | AttributeError msg | ZeroDivisionError msg
  | ValidationError msg | OtherException _ msg => msg
  | KeyError key => "'" +:+ key +:+ "'"
  | BaseException _ => ""
  end.

(** Outcome of a call: a value, or a raised exception. *)
Inductive result (A : Type) :=
| Ok (a : A)
| Raise (e : exn).
Arguments Ok {A} a.
Arguments Raise {A} e.

Definition result_bind {A B} (r : result A) (f : A -> result B) : result B :=
  match r with
  | Ok a => f a
  | Raise e => Raise e
  end.

(** Truthiness of the values the validators test with [if x:] / [x and ...]. *)
Definition truthy_int (v : option Z) : bool :=
  match v with
  | Some n => negb (n =? 0)
  | None => false
  end.

Definition truthy_str (v : option string) : bool :=
  match v with
  | Some s => negb (String.eqb s "")
  | None => false
  end.

Definition truthy_list {A} (v : option (list A)) : bool :=
  match v with
  | Some (_ :: _) => true
  | _ => false
  end.

(** [float(a) / float(b)].  Within the range where the conversion of an
    integer to binary64 is exact (magnitude at most 2^53, far above any
    EBS quantity) the quotient is the correctly rounded rational [a / b];
    a zero divisor raises. *)
Definition float_div (a b : Z) : result Q :=
  if b =? 0 then Raise (ZeroDivisionError "float division by zero")
  else Ok (inject_Z a / inject_Z b)%Q.

(** [a > b] on numbers, evaluated exactly (Python compares an integer with
    a float without rounding the integer). *)
Definition gt (a b : Q) : bool := negb (Qle_bool a b).

(** [d[k]] on a dict with string keys *)
Definition subscript {V} (d : gmap string V) (k : string) : result V :=
  match d !! k with
  | Some v => Ok v
  | None => Raise (KeyError k)
  end.

(** [sub in s] on strings *)
Fixpoint contains (sub s : string) : bool :=
  String.prefix sub s
  || match s with
     | String _ s' => contains sub s'
     | EmptyString => false
     end.

(** [str.startswith] *)
Definition startswith (s p : string) : bool := String.prefix p s.

End Py.

Export Py (exn(..), result(..)).

(** ** The fragment of [re] the sources use

    A backtracking matcher in the priority order of Python's engine:
    literal characters, [.] (any character except a newline), greedy and
    lazy repetition of one such item, [^], and capture groups. *)

Module Re.

Inductive atom :=
| Lit (c : ascii)
| Dot.

Inductive node :=
| One (a : atom)
| Star (greedy : bool) (a : atom)
| Bol
| GroupOpen
| GroupClose.

Definition pattern := list node.

Definition newline : ascii := "010"%char.

Definition accepts (a : atom) (c : ascii) : bool :=
  match a with
  | Lit d => Ascii.eqb c d
  | Dot => negb (Ascii.eqb c newline)
  end.

(** Matcher state: the text consumed so far, the groups already closed,
    and the text of the group being captured. *)
Record state := {
  consumed : string;
  closed : list string;
  opened : option string
}.

Definition start : state := {| consumed := ""; closed := []; opened := None |}.

Definition take (c : ascii) (st : state) : state :=
  {| consumed := consumed st +:+ String c "";
     closed := closed st;
     opened := (fun g => g +:+ String c "") <$> opened st |}.

Definition open_group (st : state) : state :=
  {| consumed := consumed st; closed := closed st; opened := Some "" |}.

Definition close_group (st : state) : state :=
  {| consumed := consumed st;
     closed := (closed st ++ [default "" (opened st)])%list;
     opened := None |}.

(** A match object: [group(0)] and [groups()]. *)
Record Match := { group0 : string; groups : list string }.

(** Repetition of [a] followed by the rest of the pattern [k]: a greedy
    star first tries one more character, a lazy one first tries to go on. *)
Fixpoint star (greedy : bool) (a : atom) (k : string -> state -> option Match)
    (s : string) (st : state) : option Match :=
  let more :=
    match s with
    | String c s' => if accepts a c then star greedy a k s' (take c st) else None
    | EmptyString => None
    end in
  if greedy then
    match more with
    | Some m => Some m
    | None => k s st
    end
  else
    match k s st with
    | Some m => Some m
    | None => more
    end.

Fixpoint exec (p : pattern) (s : string) (st : state) : option Match :=
  match p with
  | [] => Some {| group0 := consumed st; groups := closed st |}
  | One a :: p' =>
      match s with
      | String c s' => if accepts a c then exec p' s' (take c st) else None
      | EmptyString => None
      end
  | Star greedy a :: p' => star greedy a (exec p') s st
  | Bol :: p' => if String.eqb (consumed st) "" then exec p' s st else None
  | GroupOpen :: p' => exec p' s (open_group st)
  | GroupClose :: p' => exec p' s (close_group st)
  end.

(** [re.match(pattern, string)]: match at the start of the string. *)
Definition match_ (p : pattern) (s : string) : option Match := exec p s start.

(** A run of literal characters. *)
Fixpoint lits (w : string) : pattern :=
  match w with
  | String c w' => One (Lit c) :: lits w'
  | EmptyString => []
  end.

(** [m.group(i)] on the value [re.match] returned, which is [None] when
    nothing matched. *)
Definition group (m : option Match) (i : nat) : result string :=
  match m with
  | None => Raise (AttributeError "'NoneType' object has no attribute 'group'")
  | Some m =>
      match i with
      | O => Ok (group0 m)
      | S j =>
          match groups m !! j with
          | Some g => Ok g
          | None => Raise (OtherException "IndexError" "no such group")
          end
      end
  end.

End Re.

(** ** [pcluster.models.common]: failure levels, parameters, the validator base *)

Module Common.

Inductive FailureLevel := WARNING | ERROR.

(** A named configuration value. *)
Record Param (A : Type) := { name : string; value : A }.
Arguments name {A} _.
Arguments value {A} _.

Record ValidationFailure := {
  message : string;
  level : FailureLevel;
  params : list string  (* names of the implicated parameters, in order *)
}.

(** A method of a validator: reads and extends [self._failures], and
    returns or raises. *)
Definition M (A : Type) : Type :=
  list ValidationFailure -> result A * list ValidationFailure.

Definition ret {A} (a : A) : M A := fun fs => (Ok a, fs).

Definition bind {A B} (m : M A) (f : A -> M B) : M B :=
  fun fs =>
    match m fs with
    | (Ok a, fs') => f a fs'
    | (Raise e, fs') => (Raise e, fs')
    end.

Definition raise {A} (e : exn) : M A := fun fs => (Raise e, fs).

(** Lift the outcome of a call that does not touch the validator. *)
Definition call {A} (r : result A) : M A := fun fs => (r, fs).

(** [try: body except ...]: [clauses e] is the body of the first
    [except] clause that matches [e], if any; an exception no clause
    matches propagates.  The handler runs on the failures recorded so far. *)
Definition try_except {A} (body : M A) (clauses : exn -> option (M A)) : M A :=
  fun fs =>
    match body fs with
    | (Raise e, fs') =>
        match clauses e with
        | Some handler => handler fs'
        | None => (Raise e, fs')
        end
    | ok => ok
    end.

(** A single clause [except cls as e: handler(e)]. *)
Definition except {A} (cls : exn -> bool) (handler : exn -> M A)
    : exn -> option (M A) :=
  fun e => if cls e then Some (handler e) else None.

(** Modelled from the spec: [Validator._add_failure] ([pcluster/models/common.py]
    is not among the sources).  A validator "produces an ordered sequence
    of zero or more ValidationFailure", each with a message, a level and
    the offending parameters: the failure is appended to the sequence. *)
Definition _add_failure (msg : string) (lvl : FailureLevel)
    (param_list : list string) : M unit :=
  fun fs =>
    (Ok tt, (fs ++ [{| message := msg; level := lvl; params := param_list |}])%list).

(** Modelled from the spec: [Validator.execute] runs [_validate] on a
    fresh validator, whose sequence of failures is empty. *)
Definition execute {A} (m : M A) : result A * list ValidationFailure := m [].

End Common.

Export Common (FailureLevel(..), Param, ValidationFailure).
Import Common.

Declare Scope validator_scope.
Delimit Scope validator_scope with validator.
Notation "x <- m ;; k" := (Common.bind m (fun x => k))
  (at level 100, m at next level, right associativity) : validator_scope.
Notation "m ;; k" := (Common.bind m (fun _ => k))
  (at level 100, right associativity) : validator_scope.
Notation "'pass'" := (Common.ret tt) : validator_scope.

(** ** [pcluster/validators/ebs_validators.py] *)

Module EbsValidators.

Local Open Scope validator_scope.

(** The messages of the failures, as the validators format them. *)

Definition exceeds_max_message (volume_type : string) (max_size : Z) : string :=
  "The size of " +:+ volume_type +:+ " volumes can not exceed "
    +:+ pretty max_size +:+ " GiB".

Definition below_min_message (volume_type : string) (min_size : Z) : string :=
  "The size of " +:+ volume_type +:+ " volumes must be at least "
    +:+ pretty min_size +:+ " GiB".

Definition throughput_ratio_message (ratio : string) : string :=
  "Throughput to IOPS ratio of " +:+ ratio +:+ " is too high; maximum is 0.25.".

Definition iops_bounds_message (min_iops max_iops : Z) (volume_type : string)
    : string :=
  "IOPS rate must be between " +:+ pretty min_iops +:+ " and " +:+ pretty max_iops
    +:+ " when provisioning " +:+ volume_type +:+ " volumes.".

Definition iops_ratio_message (ratio : string) (cap : Z) : string :=
  "IOPS to volume size ratio of " +:+ ratio +:+ " is too high; maximum is "
    +:+ pretty cap +:+ ".".

Section Tables.

(** The tables of [pcluster.config.validators] are not among the
    sources; they are taken as given. *)
Variable EBS_VOLUME_TYPE_TO_VOLUME_SIZE_BOUNDS : gmap string (Z * Z).

(** [EbsVolumeTypeSizeValidator._validate] *)
Definition EbsVolumeTypeSizeValidator_validate
    (volume_type : Param string) (volume_size : Param Z) : M unit :=
  match EBS_VOLUME_TYPE_TO_VOLUME_SIZE_BOUNDS !! value volume_type with
  | Some (min_size, max_size) =>
      if value volume_size >? max_size then
        _add_failure (exceeds_max_message (value volume_type) max_size)
          ERROR [name volume_size]
      else if value volume_size <? min_size then
        _add_failure (below_min_message (value volume_type) min_size)
          ERROR [name volume_size]
      else pass
  | None => pass
  end.

Variable EBS_VOLUME_IOPS_BOUNDS : gmap string (Z * Z).
Variable EBS_VOLUME_TYPE_TO_IOPS_RATIO : gmap string Z.

(** [repr] of the binary64 number that a [float] expression evaluates
    to, as [str.format] inserts it into a message. *)
Variable float_repr : Q -> string.

(** [EbsVolumeThroughputIopsValidator._validate].  The product
    [volume_iops.value * 0.25] scales by a power of two, which is exact
    in binary64. *)
Definition EbsVolumeThroughputIopsValidator_validate
    (volume_type : Param string) (volume_iops : Param Z)
    (volume_throughput : Param (option Z)) : M unit :=
  let volume_throughput_to_iops_ratio := (1 # 4)%Q in
  if String.eqb (value volume_type) "gp3" then
    match value volume_throughput with
    | Some throughput =>
        if Py.truthy_int (Some throughput)
           && Py.gt (inject_Z throughput)
                (inject_Z (value volume_iops) * volume_throughput_to_iops_ratio)%Q
        then
          ratio <- call (Py.float_div throughput (value volume_iops)) ;;
          _add_failure (throughput_ratio_message (float_repr ratio))
            ERROR [name volume_throughput]
        else pass
    | None => pass
    end
  else pass.

(** [EbsVolumeIopsValidator._validate].  Both conditions of the
    [if]/[elif] start with the truthiness test of [volume_iops.value];
    an unset value makes both false. *)
Definition EbsVolumeIopsValidator_validate
    (volume_type : Param string) (volume_size : Param Z)
    (volume_iops : Param (option Z)) : M unit :=
  match EBS_VOLUME_IOPS_BOUNDS !! value volume_type with
  | Some (min_iops, max_iops) =>
      match value volume_iops with
      | Some iops =>
          if Py.truthy_int (Some iops)
             && ((iops <? min_iops) || (iops >? max_iops))
          then
            _add_failure
              (iops_bounds_message min_iops max_iops (value volume_type))
              ERROR [name volume_iops]
          else if Py.truthy_int (Some iops) then
            cap <- call (Py.subscript EBS_VOLUME_TYPE_TO_IOPS_RATIO
                           (value volume_type)) ;;
            if iops >? value volume_size * cap then
              ratio <- call (Py.float_div iops (value volume_size)) ;;
              cap' <- call (Py.subscript EBS_VOLUME_TYPE_TO_IOPS_RATIO
                              (value volume_type)) ;;
              _add_failure (iops_ratio_message (float_repr ratio) cap')
                ERROR [name volume_iops]
            else pass
          else pass
      | None => pass
      end
  | None => pass
  end.

End Tables.

(** The record [describe_snapshots] returns for one snapshot, read with
    [dict.get]: an absent entry reads as [None]. *)
Record Snapshot := { VolumeSize : option Z; State : option string }.

Section Snapshot.

(** Collaborators of [pcluster.utils], not among the sources:
    [get_ebs_snapshot_info(id, raise_exceptions=True)] returns the
    snapshot record or raises; [get_partition()] names the partition. *)
Variable get_ebs_snapshot_info : string -> result Snapshot.
Variable get_partition : string.

Definition smaller_than_snapshot_message (snapshot_volume_size : Z) : string :=
  "The EBS volume size must not be smaller than " +:+ pretty snapshot_volume_size
    +:+ ", " +:+ "because it is the size of the provided snapshot {snapshot_id}".

Definition larger_than_snapshot_message : string :=
  "The specified volume size is larger than snapshot size. In order to use the full capacity "
    +:+ "of the volume, you'll need to manually resize the partition according to this doc: "
    +:+ "https://"
    +:+ (if String.eqb get_partition "aws-cn" then "docs.amazonaws.cn"
         else "docs.aws.amazon.com")
    +:+ "/AWSEC2/latest/UserGuide/recognize-expanded-volume-linux.html".

Definition no_volume_size_message (id : string) : string :=
  "Unable to get volume size for snapshot " +:+ id.

Definition not_completed_message (id : string) (state : option string) : string :=
  "Snapshot " +:+ id +:+ " is in state '" +:+ Py.str_opt state
    +:+ "' not 'completed'".

Definition not_found_message (id : string) (detail : option string) : string :=
  "The snapshot " +:+ id +:+ " does not appear to exist: " +:+ Py.str_opt detail.

Definition lookup_issue_message (id detail : string) : string :=
  "Issue getting info for snapshot " +:+ id +:+ ": " +:+ detail.

(** The body of the [try] block. *)
Definition snapshot_checks (snapshot_id : Param (option string)) (id : string)
    (volume_size : Param Z) : M unit :=
  snapshot_response_dict <- call (get_ebs_snapshot_info id) ;;
  let snapshot_volume_size := VolumeSize snapshot_response_dict in
  (match snapshot_volume_size with
   | None =>
       _add_failure (no_volume_size_message id) ERROR [name snapshot_id]
   | Some size =>
       if value volume_size <? size then
         _add_failure (smaller_than_snapshot_message size)
           ERROR [name volume_size]
       else if value volume_size >? size then
         _add_failure larger_than_snapshot_message WARNING [name volume_size]
       else pass
   end) ;;
  if negb (bool_decide (State snapshot_response_dict = Some "completed")) then
    _add_failure (not_completed_message id (State snapshot_response_dict))
      WARNING [name snapshot_id]
  else pass.

(** [exception.response.get("Error").get(key)]: the second [get] is
    applied to [None] when the response has no ["Error"] entry. *)
Definition error_entry (response : Py.Response)
    (entry : Py.ErrorDict -> option string) : result (option string) :=
  match Py.Error response with
  | Some err => Ok (entry err)
  | None => Raise (AttributeError "'NoneType' object has no attribute 'get'")
  end.

(** The body of [except Exception as exception]. *)
Definition snapshot_handler (snapshot_id : Param (option string)) (id : string)
    (exception : exn) : M unit :=
  recognised <-
    (match exception with
     | ClientError response =>
         code <- call (error_entry response Py.Code) ;;
         Common.ret (bool_decide (code = Some "InvalidSnapshot.NotFound")
                     || bool_decide (code = Some "InvalidSnapshot.Malformed"))
     | _ => Common.ret false
     end) ;;
  if (recognised : bool) then
    detail <-
      (match exception with
       | ClientError response => call (error_entry response Py.Message)
       | _ => raise (AttributeError "exception has no attribute 'response'")
       end) ;;
    _add_failure (not_found_message id detail) ERROR [name snapshot_id]
  else
    detail <-
      (match exception with
       | ClientError response =>
           m <- call (error_entry response Py.Message) ;;
           Common.ret (Py.str_opt m)
       | _ => Common.ret (Py.exn_str exception)
       end) ;;
    _add_failure (lookup_issue_message id detail) ERROR [name snapshot_id].

(** [EbsVolumeSizeSnapshotValidator._validate] *)
Definition EbsVolumeSizeSnapshotValidator_validate
    (snapshot_id : Param (option string)) (volume_size : Param Z) : M unit :=
  match value snapshot_id with
  | Some id =>
      if Py.truthy_str (Some id) then
        try_except
          (snapshot_checks snapshot_id id volume_size)
          (except Py.is_Exception (snapshot_handler snapshot_id id))
      else pass
  | None => pass
  end.

End Snapshot.

(** Truthiness of an optional boolean. *)
Definition truthy_bool (v : option bool) : bool := default false v.

Definition throughput_bounds_message (min_throughput max_throughput : Z)
    (volume_type : string) : string :=
  "Throughput must be between " +:+ pretty min_throughput +:+ " MB/s and "
    +:+ pretty max_throughput +:+ " MB/s when provisioning "
    +:+ volume_type +:+ " volumes.".

(** [volume_throughput.value < min_throughput] and its sibling: comparing
    [None] with an integer raises. *)
Definition compare_unset : exn :=
  OtherException "TypeError"
    "'<' not supported between instances of 'NoneType' and 'int'".

(** [EbsVolumeThroughputValidator._validate] *)
Definition EbsVolumeThroughputValidator_validate
    (volume_type : Param string) (volume_throughput : Param (option Z)) : M unit :=
  if String.eqb (value volume_type) "gp3" then
    let '(min_throughput, max_throughput) := (125, 1000) in
    match value volume_throughput with
    | Some throughput =>
        if (throughput <? min_throughput) || (throughput >? max_throughput) then
          _add_failure
            (throughput_bounds_message min_throughput max_throughput (value volume_type))
            ERROR [name volume_throughput]
        else pass
    | None => raise compare_unset
    end
  else pass.

Definition kms_key_message (volume_kms_key_id : option string) : string :=
  "Kms Key Id " +:+ Py.str_opt volume_kms_key_id
    +:+ " is specified, the encrypted state must be True.".

(** [EBSVolumeKmsKeyIdValidator._validate] *)
Definition EBSVolumeKmsKeyIdValidator_validate
    (volume_kms_key_id : Param (option string))
    (volume_encrypted : Param (option bool)) : M unit :=
  if Py.truthy_str (value volume_kms_key_id)
     && negb (truthy_bool (value volume_encrypted))
  then
    _add_failure (kms_key_message (value volume_kms_key_id))
      ERROR [name volume_encrypted]
  else pass.

End EbsValidators.

(** ** [pcluster/validators/s3_validators.py] *)

Module S3Validators.

Local Open Scope validator_scope.

(** The pattern of [_validate_s3_uri]: the literal [s3://], a lazy group
    of any characters, a slash, a greedy group of any characters. *)
Definition s3_uri_re : Re.pattern :=
  (Re.lits "s3://"
     ++ [Re.GroupOpen; Re.Star false Re.Dot; Re.GroupClose;
         Re.One (Re.Lit "/");
         Re.GroupOpen; Re.Star true Re.Dot; Re.GroupClose])%list.

Section Collaborators.

(** [urlparse(url).scheme] of the standard library. *)
Variable urlparse_scheme : string -> string.
(** [S3Client().head_object(bucket_name, object_name)] *)
Variable head_object : string -> string -> result unit.
(** [urlopen(url)], whose response is discarded. *)
Variable urlopen : string -> result unit.

(** [UrlValidator._validate_s3_uri] *)
Definition _validate_s3_uri (s3_url : string) : M unit :=
  try_except
    (let match_ := Re.match_ s3_uri_re s3_url in
     (if negb (bool_decide (is_Some match_))
         || (match match_ with
             | Some m => (length (Re.groups m) <? 2)%nat
             | None => false
             end)
      then _add_failure ("s3 url '" +:+ s3_url +:+ "' is invalid.") ERROR []
      else pass) ;;
     bucket_name <- call (Re.group match_ 1) ;;
     object_name <- call (Re.group match_ 2) ;;
     call (head_object bucket_name object_name))
    (except Py.is_ClientError (fun _ =>
       _add_failure
         ("The S3 object does not exist or you do not have access to it."
            +:+ String Re.newline "Please make sure the cluster nodes have access to it.")
         ERROR [])).

(** The three [except] clauses around [urlopen]. *)
Definition urlopen_clauses (url : Param string) (e : exn) : option (M unit) :=
  match e with
  | HTTPError code reason =>
      Some (_add_failure
              ("The url '" +:+ value url +:+ "' cause HTTPError, the error code is '"
                 +:+ pretty code +:+ "', the error reason is '" +:+ reason +:+ "'")
              WARNING [])
  | URLError reason =>
      Some (_add_failure
              ("The url '" +:+ value url +:+ "' causes URLError, the error reason is '"
                 +:+ reason +:+ "'")
              WARNING [])
  | ValueError _ =>
      Some (_add_failure
              ("The value '" +:+ value url +:+ "' is not a valid URL")
              ERROR [name url])
  | _ => None
  end.

(** [UrlValidator._validate] *)
Definition UrlValidator_validate (url : Param string) : M unit :=
  let scheme := urlparse_scheme (value url) in
  if bool_decide (scheme ∈ ["https"; "s3"; "file"]) then
    (if String.eqb scheme "s3" then _validate_s3_uri (value url) else pass) ;;
    (if String.eqb scheme "https" then
       try_except (call (urlopen (value url))) (urlopen_clauses url)
     else pass)
  else
    _add_failure
      ("The value '" +:+ value url
         +:+ "' is not a valid URL, choose URL with 'https', 's3' or 'file' prefix.")
      ERROR [name url].

End Collaborators.

End S3Validators.

(** ** [pcluster/aws/cfn.py] *)

Module Cfn.

(** A stack as [describe_stacks] reports it: a dict, read with [dict.get].
    Only its string-valued entries are kept. *)
Abbreviation Stack := (gmap string string).

Section Client.

(** [pcluster.constants.PCLUSTER_STACK_PREFIX] *)
Variable PCLUSTER_STACK_PREFIX : string.

(** The decorator [AWSExceptionHandler.handle_client_exception], of
    [pcluster.aws.common], applied to the outcome of the method. *)
Variable handle_client_exception : result (list Stack) -> result (list Stack).

(** The condition of the comprehension; [and] evaluates its second
    operand only when the first is true. *)
Definition is_pcluster_stack (stack : Stack) : result bool :=
  if bool_decide (stack !! "ParentId" = None) then
    match stack !! "StackName" with
    | Some stack_name => Ok (Py.startswith stack_name PCLUSTER_STACK_PREFIX)
    | None => Raise (AttributeError "'NoneType' object has no attribute 'startswith'")
    end
  else Ok false.

(** The list comprehension: the items are visited in order and the ones
    that satisfy the condition are appended to the list being built. *)
Fixpoint comprehension (items : list Stack) (built : list Stack)
    : result (list Stack) :=
  match items with
  | [] => Ok built
  | stack :: rest =>
      Py.result_bind (is_pcluster_stack stack) (fun keep =>
        comprehension rest (if keep then built ++ [stack] else built))
  end.

(** [CfnClient.list_pcluster_stacks], given the stacks that
    [self._paginate_results(self._client.describe_stacks)] yields. *)
Definition list_pcluster_stacks (paginate_results : list Stack)
    : result (list Stack) :=
  handle_client_exception (comprehension paginate_results []).

End Client.

(** The response of [describe_stacks(StackName=...)], read with
    [.get("Stacks")]. *)
Record DescribeStacksResponse := { Stacks : option (list Stack) }.

Section Describe.

(** [self._client.describe_stacks(StackName=stack_name)] *)
Variable describe_stacks : string -> result DescribeStacksResponse.

(** [str()] of [StackNotFoundError(function_name, stack_name)]; the class
    is defined in [pcluster.aws.common]. *)
Variable StackNotFoundError_str : string -> string -> string.

(** The decorator [AWSExceptionHandler.handle_client_exception], applied
    to the outcome of [describe_stack]. *)
Variable handle_describe : result Stack -> result Stack.

Definition StackNotFoundError (function_name stack_name : string) : exn :=
  OtherException "StackNotFoundError" (StackNotFoundError_str function_name stack_name).

(** [isinstance(e, StackNotFoundError)] *)
Definition is_StackNotFoundError (e : exn) : bool :=
  match e with
  | OtherException cls _ => String.eqb cls "StackNotFoundError"
  | _ => false
  end.

(** [response.get("Stacks")[0]] *)
Definition first_stack (response : DescribeStacksResponse) : result Stack :=
  match Stacks response with
  | None => Raise (OtherException "TypeError" "'NoneType' object is not subscriptable")
  | Some [] => Raise (OtherException "IndexError" "list index out of range")
  | Some (stack :: _) => Ok stack
  end.

(** The text [describe_stack] looks for in a fault. *)
Definition does_not_exist_text (stack_name : string) : string :=
  "Stack with id " +:+ stack_name +:+ " does not exist".

(** [str(e)] of a fault, as its class defines it. *)
Variable fault_str : exn -> string.

(** The body of [CfnClient.describe_stack], under its decorator. *)
Definition describe_stack_body (stack_name : string) : result Stack :=
  match Py.result_bind (describe_stacks stack_name) first_stack with
  | Ok stack => Ok stack
  | Raise e =>
      if Py.is_Exception e then
        if Py.contains (does_not_exist_text stack_name) (fault_str e) then
          Raise (StackNotFoundError "describe_stack" stack_name)
        else Raise e
      else Raise e
  end.

(** [CfnClient.describe_stack] *)
Definition describe_stack (stack_name : string) : result Stack :=
  handle_describe (describe_stack_body stack_name).

(** [CfnClient.stack_exists] *)
Definition stack_exists (stack_name : string) : result bool :=
  match describe_stack stack_name with
  | Ok _ => Ok true
  | Raise e => if is_StackNotFoundError e then Ok false else Raise e
  end.

End Describe.

End Cfn.

(** ** [pcluster/schemas/imagebuilder_schema.py] *)

Module ImagebuilderSchema.

(** A tag as [TagSchema] loads it. *)
Record Tag := { key : string; tag_value : string }.

(** [r"^pcluster_*"] *)
Definition reserved_tag_re : Re.pattern :=
  (Re.Bol :: Re.lits "pcluster" ++ [Re.Star true (Re.Lit "_")])%list.

Definition reserved_tag_message : string :=
  "The tag key prefix 'pcluster_' is reserved and cannot be used.".

(** The [for tag in value] loop. *)
Fixpoint reserved_tag_loop (tags : list Tag) : result unit :=
  match tags with
  | [] => Ok tt
  | tag :: rest =>
      match Re.match_ reserved_tag_re (key tag) with
      | Some _ => Raise (ValidationError reserved_tag_message)
      | None => reserved_tag_loop rest
      end
  end.

(** [ImageSchema.validate_reserved_tag] *)
Definition validate_reserved_tag (value : option (list Tag)) : result unit :=
  if Py.truthy_list value then reserved_tag_loop (default [] value) else Ok tt.

(** What a schema hook does: it returns, raises marshmallow's
    [ValidationError(message, field_name)], or fails with another exception. *)
Inductive verdict :=
| Valid
| Invalid (message : string) (field_name : option string)
| Fault (e : exn).

Section Component.

(** [common.utils.get_url_scheme], applied to what [data.get("value")]
    returned. *)
Variable get_url_scheme : option string -> string.

Definition arn_value_message (value : string) : string :=
  "The Type in Component is arn, the value '" +:+ value +:+ "' is invalid. "
    +:+ "Choose a value with 'arn' prefix.".

Definition script_value_message (value : option string) : string :=
  "The Type in Component is script, the value '" +:+ Py.str_opt value
    +:+ "' is invalid. " +:+ "Choose a value with 'https' or 's3' prefix url.".

(** [ComponentSchema.validate_component_value]; [data] is the dict of the
    loaded fields. *)
Definition validate_component_value (data : gmap string string) : verdict :=
  let type := data !! "type" in
  let value := data !! "value" in
  match
    (if bool_decide (type = Some "arn") then
       match value with
       | Some v =>
           if negb (Py.startswith v "arn") then
             Invalid (arn_value_message v) (Some "Value")
           else Valid
       | None =>
           Fault (AttributeError "'NoneType' object has no attribute 'startswith'")
       end
     else Valid)
  with
  | Valid =>
      if bool_decide (type = Some "script")
         && negb (bool_decide (get_url_scheme value ∈ ["https"; "s3"]))
      then Invalid (script_value_message value) (Some "Value")
      else Valid
  | stop => stop
  end.

End Component.

(** The pattern of [BuildSchema.parent_image], [^ami] or [arn]: the
    alternatives are tried in order, each from the start of the value. *)
Definition parent_image_ami : Re.pattern := Re.Bol :: Re.lits "ami".
Definition parent_image_arn : Re.pattern := Re.lits "arn".

Definition parent_image_match (value : string) : option Re.Match :=
  match Re.match_ parent_image_ami value with
  | Some m => Some m
  | None => Re.match_ parent_image_arn value
  end.

(** The pattern of [IamSchema.cleanup_lambda_role]: [^arn:], any
    characters, [:role/]. *)
Definition cleanup_lambda_role_re : Re.pattern :=
  (Re.Bol :: Re.lits "arn:" ++ Re.Star true Re.Dot :: Re.lits ":role/")%list.

End ImagebuilderSchema.

(** ** Concrete instances used to run the validators

    The size bounds are the ones the docstring of
    [EbsVolumeTypeSizeValidator] lists; the IOPS tables and the rendering
    of floats are instances of the parameters, for evaluation only. *)

Module Samples.

Definition size_bounds : gmap string (Z * Z) :=
  {[ "standard" := (1, 1024); "gp2" := (1, 16384); "gp3" := (1, 16384);
     "io1" := (4, 16384); "io2" := (4, 16384);
     "st1" := (500, 16384); "sc1" := (500, 16384) ]}.

Definition iops_bounds : gmap string (Z * Z) :=
  {[ "io1" := (100, 64000); "io2" := (100, 256000); "gp3" := (3000, 16000) ]}.

Definition iops_ratio : gmap string Z :=
  {[ "io1" := 50; "io2" := 1000; "gp3" := 500 ]}.

(** Renders a quotient as [numerator/denominator]. *)
Definition float_repr (q : Q) : string :=
  pretty (Qnum q) +:+ "/" +:+ pretty (Zpos (Qden q)).

Definition volume_type (v : string) : Param string :=
  {| Common.name := "volume_type"; Common.value := v |}.
Definition volume_size (v : Z) : Param Z :=
  {| Common.name := "volume_size"; Common.value := v |}.
Definition volume_iops (v : Z) : Param Z :=
  {| Common.name := "volume_iops"; Common.value := v |}.
Definition volume_iops_opt (v : option Z) : Param (option Z) :=
  {| Common.name := "volume_iops"; Common.value := v |}.
Definition volume_throughput (v : option Z) : Param (option Z) :=
  {| Common.name := "volume_throughput"; Common.value := v |}.
Definition snapshot_id (v : option string) : Param (option string) :=
  {| Common.name := "snapshot_id"; Common.value := v |}.

(** A snapshot of 50 GiB, still pending. *)
Definition pending_snapshot_50 (_ : string) : result EbsValidators.Snapshot :=
  Ok {| EbsValidators.VolumeSize := Some 50; EbsValidators.State := Some "pending" |}.

(** A snapshot of 50 GiB, completed. *)
Definition completed_snapshot_50 (_ : string) : result EbsValidators.Snapshot :=
  Ok {| EbsValidators.VolumeSize := Some 50; EbsValidators.State := Some "completed" |}.

(** A lookup that fails to reach the service. *)
Definition unreachable_service (_ : string) : result EbsValidators.Snapshot :=
  Raise (OtherException "EndpointConnectionError" "Could not connect to the endpoint URL").

(** Three stacks: a cluster, a nested stack of a cluster, and a stack of
    another tool. *)
Definition cluster_stack : gmap string string :=
  {[ "StackName" := "parallelcluster-hpc"; "StackStatus" := "CREATE_COMPLETE" ]}.
Definition nested_stack : gmap string string :=
  {[ "StackName" := "parallelcluster-hpc-EBS";
     "ParentId" := "arn:aws:cloudformation:stack/parallelcluster-hpc" ]}.
Definition foreign_stack : gmap string string :=
  {[ "StackName" := "website"; "StackStatus" := "CREATE_COMPLETE" ]}.

(** A decorator that re-labels service faults and lets the rest through. *)
Definition relabel_client_error (r : result (list (gmap string string)))
    : result (list (gmap string string)) :=
  match r with
  | Raise (ClientError response) =>
      Raise (OtherException "AWSClientError" (Py.exn_str (ClientError response)))
  | other => other
  end.

(** The scheme of a URL, read as the text before the first colon. *)
Fixpoint scheme_before_colon (url : string) : string :=
  match url with
  | String c rest =>
      if Ascii.eqb c ":" then "" else String c (scheme_before_colon rest)
  | EmptyString => ""
  end.

Definition volume_kms_key_id (v : option string) : Param (option string) :=
  {| Common.name := "volume_kms_key_id"; Common.value := v |}.
Definition volume_encrypted (v : option bool) : Param (option bool) :=
  {| Common.name := "volume_encrypted"; Common.value := v |}.
Definition url (v : string) : Param string :=
  {| Common.name := "url"; Common.value := v |}.

(** A snapshot record without its size and state entries. *)
Definition bare_snapshot (_ : string) : result EbsValidators.Snapshot :=
  Ok {| EbsValidators.VolumeSize := None; EbsValidators.State := None |}.

(** A lookup answered with the "not found" code of the service. *)
Definition missing_snapshot (_ : string) : result EbsValidators.Snapshot :=
  Raise (ClientError
           {| Py.Error :=
                Some {| Py.Code := Some "InvalidSnapshot.NotFound";
                        Py.Message := Some "The snapshot 'snap-0123' does not exist." |} |}).

(** A lookup that fails with a [ClientError] whose response is empty. *)
Definition garbled_fault (_ : string) : result EbsValidators.Snapshot :=
  Raise (ClientError {| Py.Error := None |}).

(** A lookup interrupted from the keyboard. *)
Definition interrupted_lookup (_ : string) : result EbsValidators.Snapshot :=
  Raise (BaseException "KeyboardInterrupt").

(** An object store that knows one object. *)
Definition one_object (bucket_name object_name : string) : result unit :=
  if String.eqb bucket_name "artifacts" && String.eqb object_name "post/install.sh"
  then Ok tt
  else Raise (ClientError
                {| Py.Error := Some {| Py.Code := Some "404";
                                       Py.Message := Some "Not Found" |} |}).

(** A fetch that is refused with status 403. *)
Definition forbidden_fetch (_ : string) : result unit :=
  Raise (HTTPError 403 "Forbidden").

(** A stack service that knows one stack. *)
Definition one_stack_service (stack_name : string)
    : result Cfn.DescribeStacksResponse :=
  if String.eqb stack_name "parallelcluster-hpc"
  then Ok {| Cfn.Stacks := Some [cluster_stack] |}
  else Raise (ClientError
                {| Py.Error :=
                     Some {| Py.Code := Some "ValidationError";
                             Py.Message :=
                               Some ("Stack with id " +:+ stack_name
                                       +:+ " does not exist") |} |}).

Definition stack_not_found_str (function_name stack_name : string) : string :=
  function_name +:+ ": stack " +:+ stack_name +:+ " not found".

(** A top-level stack and a nested stack that carry no name. *)
Definition nameless_stack : gmap string string :=
  {[ "StackStatus" := "CREATE_COMPLETE" ]}.
Definition nameless_nested_stack : gmap string string :=
  {[ "ParentId" := "arn:aws:cloudformation:stack/parallelcluster-hpc" ]}.

(** A stack service that answers with an empty list of stacks. *)
Definition no_stack_service (_ : string) : result Cfn.DescribeStacksResponse :=
  Ok {| Cfn.Stacks := Some [] |}.

(** A stack service interrupted from the keyboard. *)
Definition interrupted_service (_ : string) : result Cfn.DescribeStacksResponse :=
  Raise (BaseException "KeyboardInterrupt").

(** The scheme of an optional value, with none for a missing one. *)
Definition scheme_of_value (v : option string) : string :=
  match v with
  | Some u => scheme_before_colon u
  | None => ""
  end.

(** Components as the schema loads them. *)
Definition arnold_component : gmap string string :=
  {[ "type" := "arn"; "value" := "arnold" ]}.
Definition valueless_arn_component : gmap string string :=
  {[ "type" := "arn" ]}.
Definition file_script_component : gmap string string :=
  {[ "type" := "script"; "value" := "file:///opt/install.sh" ]}.
Definition yaml_component : gmap string string :=
  {[ "type" := "yaml"; "value" := "anything" ]}.

(** A decorator for [describe_stack] that lets every outcome through. *)
Definition transparent_decorator (r : result (gmap string string))
    : result (gmap string string) := r.

End Samples.

(** ** Vocabulary of the statements *)

Module Vocabulary.

(** A failure with the given message, level and implicated parameters. *)
Definition failure (msg : string) (lvl : FailureLevel) (ps : list string)
    : ValidationFailure :=
  {| Common.message := msg; Common.level := lvl; Common.params := ps |}.

(** The outcome and the failures of a run. *)
Definition outcome {A} (r : result A * list ValidationFailure) : result A := r.1.
Definition failures {A} (r : result A * list ValidationFailure)
    : list ValidationFailure := r.2.

(** The snapshot lookup fault is one the validator recognises: a
    [ClientError] whose error code is one of the two "not found" codes. *)
Definition recognised_fault (e : exn) : Prop :=
  exists response err,
    e = ClientError response /\ Py.Error response = Some err /\
    (Py.Code err = Some "InvalidSnapshot.NotFound"
     \/ Py.Code err = Some "InvalidSnapshot.Malformed").

(** A [ClientError] carries an ["Error"] entry in its response. *)
Definition well_formed_fault (e : exn) : Prop :=
  forall response, e = ClientError response -> is_Some (Py.Error response).

(** The text a fault contributes to the generic lookup failure: the
    message of the service for a [ClientError], [str(e)] otherwise. *)
Definition fault_detail (e : exn) : string :=
  match e with
  | ClientError response =>
      Py.str_opt (Py.Error response ≫= Py.Message)
  | _ => Py.exn_str e
  end.

(** The stacks [list_pcluster_stacks] is to return: no parent, and a name
    that starts with the prefix. *)
Definition wanted_stack (prefix : string) (stack : gmap string string) : bool :=
  bool_decide (stack !! "ParentId" = None)
  && match stack !! "StackName" with
     | Some stack_name => String.prefix prefix stack_name
     | None => false
     end.

(** A tag key that begins with the letters [pcluster]. *)
Definition begins_with_pcluster (tag : ImagebuilderSchema.Tag) : bool :=
  String.prefix "pcluster" (ImagebuilderSchema.key tag).

(** The failure [_validate_s3_uri] records for a URL it cannot split. *)
Definition invalid_s3_url (s3_url : string) : ValidationFailure :=
  failure ("s3 url '" +:+ s3_url +:+ "' is invalid.") ERROR [].

(** Truthiness of what [re.match] returns. *)
Definition matched (m : option Re.Match) : bool :=
  match m with
  | Some _ => true
  | None => false
  end.

(** The integer converts to binary64 as it is: its magnitude is at most
    2^53.  Beyond that [float(n)] rounds, and from 2^1024 on it raises
    [OverflowError]; neither is part of the model, so the statements about
    the float expressions of the validators are made within this range. *)
Definition exact_float (n : Z) : Prop := Z.abs n <= 2 ^ 53.

(** The same for an optional integer, when it is set. *)
Definition exact_float_if_set (v : option Z) : Prop :=
  forall n, v = Some n -> exact_float n.

(** The placeholder that a format string without its [f] prefix keeps. *)
Definition placeholder : string := "{snapshot_id}".

(** No character of [s] is [c]. *)
Fixpoint free_of (c : ascii) (s : string) : bool :=
  match s with
  | String b s' => negb (Ascii.eqb b c) && free_of c s'
  | EmptyString => true
  end.

(** [s] is empty or begins with a newline: where [.] stops. *)
Definition at_line_end (s : string) : bool :=
  match s with
  | String b _ => Ascii.eqb b Re.newline
  | EmptyString => true
  end.

(** The matcher state after consuming the text [w]. *)
Definition advance (w : string) (st : Re.state) : Re.state :=
  {| Re.consumed := Re.consumed st +:+ w;
     Re.closed := Re.closed st;
     Re.opened := (fun g => g +:+ w) <$> Re.opened st |}.

(** A slash occurs in [s] before any newline. *)
Fixpoint slash_on_first_line (s : string) : bool :=
  match s with
  | String b s' =>
      if Ascii.eqb b "/" then true
      else if Ascii.eqb b Re.newline then false
      else slash_on_first_line s'
  | EmptyString => false
  end.

End Vocabulary.

Import Vocabulary.

(** * Properties *)

(** Unfolds the monadic plumbing of a validator run. *)
Ltac run :=
  unfold execute, outcome, failures, Common.bind, Common.ret, Common.call,
    Common.raise, Common._add_failure, Common.try_except, Common.except;
  simpl.

(** ** [EbsVolumeTypeSizeValidator] *)

Section TypeSize.

Import EbsValidators.

Variable table : gmap string (Z * Z).
Variables (volume_type : Param string) (volume_size : Param Z).

Let out := execute (EbsVolumeTypeSizeValidator_validate table volume_type volume_size).

Lemma type_size_run :
  out =
  (Ok tt,
   match table !! value volume_type with
   | Some (min_size, max_size) =>
       if value volume_size >? max_size then
         [failure (exceeds_max_message (value volume_type) max_size)
            ERROR [name volume_size]]
       else if value volume_size <? min_size then
         [failure (below_min_message (value volume_type) min_size)
            ERROR [name volume_size]]
       else []
   | None => []
   end).
Proof.
  subst out. unfold EbsVolumeTypeSizeValidator_validate.
  destruct (table !! value volume_type) as [[min_size max_size]|]; [|reflexivity].
  destruct (value volume_size >? max_size); [reflexivity|].
  destruct (value volume_size <? min_size); reflexivity.
Qed.

(** C4. For a volume type with size bounds (min, max) the validator
    returns with no failure when min <= size <= max, with exactly one
    ERROR failure ("can not exceed") when size > max, with exactly one
    ERROR failure when size < min ("must be at least", unless the size
    also exceeds max), and never with more than one failure; for a type
    absent from the table it returns with no failure. *)
Theorem type_size_closed_interval :
  outcome out = Ok tt /\
  (forall min_size max_size,
      table !! value volume_type = Some (min_size, max_size) ->
      (min_size <= value volume_size <= max_size -> failures out = []) /\
      (value volume_size > max_size ->
       failures out =
       [failure (exceeds_max_message (value volume_type) max_size)
          ERROR [name volume_size]]) /\
      (value volume_size < min_size ->
       exists f, failures out = [f] /\ Common.level f = ERROR) /\
      (value volume_size < min_size -> value volume_size <= max_size ->
       failures out =
       [failure (below_min_message (value volume_type) min_size)
          ERROR [name volume_size]]) /\
      (length (failures out) <= 1)%nat) /\
  (table !! value volume_type = None -> failures out = []).
Proof.
  rewrite type_size_run. split; [reflexivity|]. split.
  - intros min_size max_size ->. unfold failures; simpl.
    destruct (Z.gtb_spec (value volume_size) max_size) as [Hgt|Hle];
      [|destruct (Z.ltb_spec (value volume_size) min_size) as [Hlt|Hge]].
    + repeat split; try (intros; lia); eauto; simpl; lia.
    + repeat split; try (intros; lia); eauto; simpl; lia.
    + repeat split; try (intros; lia); eauto; simpl; lia.
  - intros ->. reflexivity.
Qed.

End TypeSize.

Lemma type_size_closed_interval_witness :
  failures (execute (EbsValidators.EbsVolumeTypeSizeValidator_validate
                       Samples.size_bounds (Samples.volume_type "st1")
                       (Samples.volume_size 500))) = []
  /\ failures (execute (EbsValidators.EbsVolumeTypeSizeValidator_validate
                       Samples.size_bounds (Samples.volume_type "st1")
                       (Samples.volume_size 16385)))
     = [failure "The size of st1 volumes can not exceed 16384 GiB" ERROR ["volume_size"]]
  /\ failures (execute (EbsValidators.EbsVolumeTypeSizeValidator_validate
                       Samples.size_bounds (Samples.volume_type "st1")
                       (Samples.volume_size 499)))
     = [failure "The size of st1 volumes must be at least 500 GiB" ERROR ["volume_size"]]
  /\ failures (execute (EbsValidators.EbsVolumeTypeSizeValidator_validate
                       Samples.size_bounds (Samples.volume_type "nvme")
                       (Samples.volume_size 0))) = [].
Proof.
  assert (Hst1 : Samples.size_bounds !! "st1" = Some (500, 16384)) by reflexivity.
  split; [|split; [|split]].
  - destruct (type_size_closed_interval Samples.size_bounds (Samples.volume_type "st1")
                (Samples.volume_size 500)) as (_ & H & _).
    destruct (H 500 16384 Hst1) as (Hin & _). apply Hin. simpl. lia.
  - destruct (type_size_closed_interval Samples.size_bounds (Samples.volume_type "st1")
                (Samples.volume_size 16385)) as (_ & H & _).
    destruct (H 500 16384 Hst1) as (_ & Hgt & _). apply Hgt. simpl. lia.
  - destruct (type_size_closed_interval Samples.size_bounds (Samples.volume_type "st1")
                (Samples.volume_size 499)) as (_ & H & _).
    destruct (H 500 16384 Hst1) as (_ & _ & _ & Hlt & _). apply Hlt; simpl; lia.
  - destruct (type_size_closed_interval Samples.size_bounds (Samples.volume_type "nvme")
                (Samples.volume_size 0)) as (_ & _ & H).
    apply H. reflexivity.
Defined.

(** ** [EbsVolumeThroughputIopsValidator] *)

(** [throughput > iops * 0.25], on integers. *)
Lemma gt_quarter (throughput iops : Z) :
  Py.gt (inject_Z throughput) (inject_Z iops * (1 # 4))%Q = (4 * throughput >? iops).
Proof.
  unfold Py.gt.
  destruct (Z.gtb_spec (4 * throughput) iops) as [Hgt|Hle].
  - apply negb_true_iff. apply not_true_iff_false. rewrite Qle_bool_iff.
    unfold Qle; simpl. lia.
  - apply negb_false_iff. rewrite Qle_bool_iff. unfold Qle; simpl. lia.
Qed.

Section ThroughputIops.

Import EbsValidators.

Variable float_repr : Q -> string.
Variables (volume_type : Param string) (volume_iops : Param Z)
  (volume_throughput : Param (option Z)).

Let out :=
  execute (EbsVolumeThroughputIopsValidator_validate float_repr
             volume_type volume_iops volume_throughput).

(** The condition under which the failure branch is entered. *)
Let fires : bool :=
  String.eqb (value volume_type) "gp3"
  && match value volume_throughput with
     | Some throughput => negb (throughput =? 0) && (4 * throughput >? value volume_iops)
     | None => false
     end.

Lemma throughput_iops_run :
  out =
  if fires then
    match value volume_throughput with
    | Some throughput =>
        if value volume_iops =? 0 then
          (Raise (ZeroDivisionError "float division by zero"), [])
        else
          (Ok tt,
           [failure
              (throughput_ratio_message
                 (float_repr (inject_Z throughput / inject_Z (value volume_iops))%Q))
              ERROR [name volume_throughput]])
    | None => (Ok tt, [])
    end
  else (Ok tt, []).
Proof.
  subst out fires. unfold EbsVolumeThroughputIopsValidator_validate.
  destruct (String.eqb (value volume_type) "gp3"); [|reflexivity].
  destruct (value volume_throughput) as [throughput|]; [|reflexivity].
  rewrite gt_quarter. cbn [andb Py.truthy_int].
  destruct (negb (throughput =? 0) && (4 * throughput >? value volume_iops));
    [|reflexivity].
  run. unfold Py.float_div.
  destruct (value volume_iops =? 0); reflexivity.
Qed.


(** For an integer [volume_iops] and a throughput within the range of
    exact conversion, the validator raises exactly on gp3 volumes with
    zero IOPS and a positive throughput. *)
Lemma throughput_iops_raises_iff :
  exact_float (value volume_iops) ->
  exact_float_if_set (value volume_throughput) ->
  (exists e, outcome out = Raise e) <->
  value volume_type = "gp3" /\ value volume_iops = 0 /\
  exists throughput, value volume_throughput = Some throughput /\ throughput > 0.
Proof.
  intros _ _. rewrite throughput_iops_run. subst fires.
  destruct (String.eqb_spec (value volume_type) "gp3") as [Hgp3|Hgp3]; simpl.
  2: { split; [intros [e He]; discriminate | intros [? _]; contradiction]. }
  destruct (value volume_throughput) as [throughput|].
  2: { split; [intros [e He]; discriminate | intros (_ & _ & t & Ht & _); discriminate]. }
  destruct (Z.eqb_spec throughput 0) as [->|Htp]; simpl.
  { split; [intros [e He]; discriminate|].
    intros (_ & _ & t & Ht & Hpos). injection Ht as <-. lia. }
  destruct (Z.gtb_spec (4 * throughput) (value volume_iops)) as [Hgt|Hle]; simpl.
  - destruct (Z.eqb_spec (value volume_iops) 0) as [Hz|Hnz].
    + split; [|intros _; eexists; reflexivity].
      intros _. repeat split; try assumption. exists throughput. split; [reflexivity|lia].
    + split; [intros [e He]; discriminate | intros (_ & ? & _); contradiction].
  - split; [intros [e He]; discriminate|].
    intros (_ & Hz & t & Ht & Hpos). injection Ht as <-. lia.
Qed.

End ThroughputIops.

(** C5, at the input where the code departs from it: gp3, zero IOPS and a
    throughput of 1 satisfy "throughput > iops x 0.25", yet no failure is
    recorded: formatting the ratio raises [ZeroDivisionError]. *)
Theorem throughput_iops_zero_iops_no_failure :
  forall float_repr,
    execute (EbsValidators.EbsVolumeThroughputIopsValidator_validate float_repr
               (Samples.volume_type "gp3") (Samples.volume_iops 0)
               (Samples.volume_throughput (Some 1)))
    = (Raise (ZeroDivisionError "float division by zero"), []).
Proof. intros float_repr. reflexivity. Qed.

(** The examples of the specification: 101 MB/s against 400 IOPS is
    rejected, 100 MB/s (a ratio of exactly 0.25) passes. *)
Example throughput_iops_101_400 :
  execute (EbsValidators.EbsVolumeThroughputIopsValidator_validate Samples.float_repr
             (Samples.volume_type "gp3") (Samples.volume_iops 400)
             (Samples.volume_throughput (Some 101)))
  = (Ok tt,
     [failure "Throughput to IOPS ratio of 101/400 is too high; maximum is 0.25."
        ERROR ["volume_throughput"]]).
Proof. reflexivity. Qed.

Example throughput_iops_100_400 :
  execute (EbsValidators.EbsVolumeThroughputIopsValidator_validate Samples.float_repr
             (Samples.volume_type "gp3") (Samples.volume_iops 400)
             (Samples.volume_throughput (Some 100)))
  = (Ok tt, []).
Proof. reflexivity. Qed.



(** ** [EbsVolumeIopsValidator] *)

Section Iops.

Import EbsValidators.

Variable bounds : gmap string (Z * Z).
Variable ratios : gmap string Z.
Variable float_repr : Q -> string.
Variables (volume_type : Param string) (volume_size : Param Z)
  (volume_iops : Param (option Z)).

Let out :=
  execute (EbsVolumeIopsValidator_validate bounds ratios float_repr
             volume_type volume_size volume_iops).

Lemma iops_run :
  out =
  match bounds !! value volume_type, value volume_iops with
  | Some (min_iops, max_iops), Some iops =>
      if iops =? 0 then (Ok tt, [])
      else if (iops <? min_iops) || (iops >? max_iops) then
        (Ok tt,
         [failure (iops_bounds_message min_iops max_iops (value volume_type))
            ERROR [name volume_iops]])
      else
        match ratios !! value volume_type with
        | Some cap =>
            if iops >? value volume_size * cap then
              if value volume_size =? 0 then
                (Raise (ZeroDivisionError "float division by zero"), [])
              else
                (Ok tt,
                 [failure
                    (iops_ratio_message
                       (float_repr (inject_Z iops / inject_Z (value volume_size))%Q)
                       cap)
                    ERROR [name volume_iops]])
            else (Ok tt, [])
        | None => (Raise (KeyError (value volume_type)), [])
        end
  | _, _ => (Ok tt, [])
  end.
Proof.
  subst out. unfold EbsVolumeIopsValidator_validate.
  destruct (bounds !! value volume_type) as [[min_iops max_iops]|]; [|reflexivity].
  destruct (value volume_iops) as [iops|]; [|reflexivity].
  cbn [Py.truthy_int].
  destruct (iops =? 0); [reflexivity|]. cbn [negb andb].
  destruct ((iops <? min_iops) || (iops >? max_iops)); [reflexivity|].
  run. unfold Py.subscript.
  destruct (ratios !! value volume_type) as [cap|]; [|reflexivity].
  destruct (iops >? value volume_size * cap); [|reflexivity].
  unfold Py.float_div.
  destruct (value volume_size =? 0); reflexivity.
Qed.

(** At most one failure is recorded, whatever the input. *)
Lemma iops_at_most_one_failure : (length (failures out) <= 1)%nat.
Proof.
  rewrite iops_run.
  repeat (match goal with
          | |- context [match ?x with _ => _ end] => destruct x
          end); simpl; lia.
Qed.

(** A type without IOPS bounds, or an unset IOPS value, passes. *)
Lemma iops_no_bounds :
  bounds !! value volume_type = None \/ Py.truthy_int (value volume_iops) = false ->
  out = (Ok tt, []).
Proof.
  rewrite iops_run. intros [->| Hunset]; [reflexivity|].
  destruct (bounds !! value volume_type) as [[min_iops max_iops]|]; [|reflexivity].
  destruct (value volume_iops) as [iops|]; [|reflexivity].
  simpl in Hunset. apply negb_false_iff in Hunset. now rewrite Hunset.
Qed.

(** A set IOPS value outside the bounds of the type: the bounds failure
    alone, the cap per GiB is not consulted. *)
Lemma iops_out_of_bounds min_iops max_iops iops :
  bounds !! value volume_type = Some (min_iops, max_iops) ->
  value volume_iops = Some iops -> iops <> 0 ->
  iops < min_iops \/ iops > max_iops ->
  out =
  (Ok tt,
   [failure (iops_bounds_message min_iops max_iops (value volume_type))
      ERROR [name volume_iops]]).
Proof.
  intros Hb Hi Hnz Hout. rewrite iops_run, Hb, Hi.
  destruct (Z.eqb_spec iops 0) as [?|_]; [contradiction|].
  destruct (Z.ltb_spec iops min_iops), (Z.gtb_spec iops max_iops);
    simpl; (reflexivity || lia).
Qed.

(** A set IOPS value within the bounds, for a volume of non-zero size: the
    ratio failure exactly when the IOPS exceed size times the cap. *)
Lemma iops_within_bounds min_iops max_iops cap iops :
  bounds !! value volume_type = Some (min_iops, max_iops) ->
  ratios !! value volume_type = Some cap ->
  value volume_iops = Some iops -> iops <> 0 ->
  min_iops <= iops <= max_iops ->
  value volume_size <> 0 ->
  out =
  (Ok tt,
   if iops >? value volume_size * cap then
     [failure
        (iops_ratio_message
           (float_repr (inject_Z iops / inject_Z (value volume_size))%Q) cap)
        ERROR [name volume_iops]]
   else []).
Proof.
  intros Hb Hr Hi Hnz Hin Hsize. rewrite iops_run, Hb, Hi, Hr.
  destruct (Z.eqb_spec iops 0) as [?|_]; [contradiction|].
  destruct (Z.ltb_spec iops min_iops), (Z.gtb_spec iops max_iops); simpl; try lia.
  destruct (iops >? value volume_size * cap); [|reflexivity].
  destruct (Z.eqb_spec (value volume_size) 0) as [?|_]; [contradiction|reflexivity].
Qed.

(** With a size of zero every set IOPS value within the bounds exceeds the
    cap when positive, and the division in the message raises. *)
Lemma iops_zero_size min_iops max_iops cap iops :
  bounds !! value volume_type = Some (min_iops, max_iops) ->
  ratios !! value volume_type = Some cap ->
  value volume_iops = Some iops -> 0 < iops ->
  min_iops <= iops <= max_iops ->
  value volume_size = 0 ->
  out = (Raise (ZeroDivisionError "float division by zero"), []).
Proof.
  intros Hb Hr Hi Hpos Hin Hsize. rewrite iops_run, Hb, Hi, Hr, Hsize.
  destruct (Z.eqb_spec iops 0) as [?|_]; [lia|].
  destruct (Z.ltb_spec iops min_iops), (Z.gtb_spec iops max_iops); simpl; try lia.
  destruct (Z.gtb_spec iops (0 * cap)) as [_|?]; [reflexivity|lia].
Qed.

End Iops.

(** C6, at the input where the code departs from it: io1 with bounds
    (100, 64000) and a cap of 50 IOPS per GiB, 100 IOPS on a volume of size
    zero.  The IOPS are within the bounds and exceed the cap (100 > 0 x 50),
    yet no failure is recorded: formatting the ratio raises
    [ZeroDivisionError]. *)
Theorem iops_zero_size_no_failure :
  forall float_repr,
    execute (EbsValidators.EbsVolumeIopsValidator_validate
               Samples.iops_bounds Samples.iops_ratio float_repr
               (Samples.volume_type "io1") (Samples.volume_size 0)
               (Samples.volume_iops_opt (Some 100)))
    = (Raise (ZeroDivisionError "float division by zero"), []).
Proof. intros float_repr. reflexivity. Qed.

(** The cases of the specification for io1 and a size of 4 GiB. *)
Example iops_io1_below_min :
  execute (EbsValidators.EbsVolumeIopsValidator_validate
             Samples.iops_bounds Samples.iops_ratio Samples.float_repr
             (Samples.volume_type "io1") (Samples.volume_size 4)
             (Samples.volume_iops_opt (Some 99)))
  = (Ok tt,
     [failure "IOPS rate must be between 100 and 64000 when provisioning io1 volumes."
        ERROR ["volume_iops"]]).
Proof. reflexivity. Qed.

Example iops_io1_above_cap :
  execute (EbsValidators.EbsVolumeIopsValidator_validate
             Samples.iops_bounds Samples.iops_ratio Samples.float_repr
             (Samples.volume_type "io1") (Samples.volume_size 4)
             (Samples.volume_iops_opt (Some 201)))
  = (Ok tt,
     [failure "IOPS to volume size ratio of 201/4 is too high; maximum is 50."
        ERROR ["volume_iops"]]).
Proof. reflexivity. Qed.

Example iops_io1_within :
  execute (EbsValidators.EbsVolumeIopsValidator_validate
             Samples.iops_bounds Samples.iops_ratio Samples.float_repr
             (Samples.volume_type "io1") (Samples.volume_size 4)
             (Samples.volume_iops_opt (Some 200)))
  = (Ok tt, []).
Proof. reflexivity. Qed.

(** ** [EbsVolumeSizeSnapshotValidator] *)

Lemma contains_cons (sub : string) (c : ascii) (s : string) :
  Py.contains sub (String c s) = String.prefix sub (String c s) || Py.contains sub s.
Proof. reflexivity. Qed.

(** A text found in [s] is found in [a +:+ s]. *)
Lemma contains_prepend (sub a s : string) :
  Py.contains sub s = true -> Py.contains sub (a +:+ s) = true.
Proof.
  intros Hs. induction a as [|c a IH]; [exact Hs|].
  change (String c a +:+ s) with (String c (a +:+ s)).
  rewrite contains_cons, IH. apply orb_true_r.
Qed.

Lemma truthy_str_nonempty (id : string) : id <> "" -> Py.truthy_str (Some id) = true.
Proof.
  intros Hne. unfold Py.truthy_str.
  destruct (String.eqb_spec id ""); [contradiction|reflexivity].
Qed.

Section SnapshotValidator.

Import EbsValidators.

Variable get_ebs_snapshot_info : string -> result Snapshot.
Variable get_partition : string.
Variables (snapshot_id : Param (option string)) (volume_size : Param Z).
Variable id : string.

Hypothesis snapshot_id_set : value snapshot_id = Some id.
Hypothesis snapshot_id_nonempty : id <> "".

Let out :=
  execute (EbsVolumeSizeSnapshotValidator_validate get_ebs_snapshot_info get_partition
             snapshot_id volume_size).

(** The failures of the size comparison and of the state check. *)
Let size_failures (snapshot : Snapshot) : list ValidationFailure :=
  match VolumeSize snapshot with
  | None => [failure (no_volume_size_message id) ERROR [name snapshot_id]]
  | Some size =>
      if value volume_size <? size then
        [failure (smaller_than_snapshot_message size) ERROR [name volume_size]]
      else if value volume_size >? size then
        [failure (larger_than_snapshot_message get_partition) WARNING [name volume_size]]
      else []
  end.

Let state_failures (snapshot : Snapshot) : list ValidationFailure :=
  if bool_decide (State snapshot = Some "completed") then []
  else [failure (not_completed_message id (State snapshot)) WARNING [name snapshot_id]].

(** A lookup that returns: the size failure, then the state failure. *)
Lemma snapshot_run_found (snapshot : Snapshot) :
  get_ebs_snapshot_info id = Ok snapshot ->
  out = (Ok tt, size_failures snapshot ++ state_failures snapshot).
Proof.
  intros Hfound. subst out size_failures state_failures.
  unfold EbsVolumeSizeSnapshotValidator_validate.
  rewrite snapshot_id_set, (truthy_str_nonempty _ snapshot_id_nonempty).
  unfold snapshot_checks. run. rewrite Hfound.
  destruct (VolumeSize snapshot) as [size|];
    [destruct (value volume_size <? size); [|destruct (value volume_size >? size)]|];
    destruct (bool_decide (State snapshot = Some "completed")); reflexivity.
Qed.

(** A lookup that raises: the handler runs for every [Exception], on an
    empty list of failures. *)
Lemma snapshot_run_raised (e : exn) :
  get_ebs_snapshot_info id = Raise e ->
  out =
  if Py.is_Exception e then snapshot_handler snapshot_id id e [] else (Raise e, []).
Proof.
  intros Hraised. subst out.
  unfold EbsVolumeSizeSnapshotValidator_validate.
  rewrite snapshot_id_set, (truthy_str_nonempty _ snapshot_id_nonempty).
  unfold snapshot_checks. run. rewrite Hraised.
  destruct (Py.is_Exception e); reflexivity.
Qed.

(** C2. When the lookup returns a record with a size and a state, the run
    returns with the size failures followed by the state failures: an
    ERROR when the volume is smaller than the snapshot, a WARNING when it
    is larger, nothing when the sizes are equal; and, whatever the sizes,
    one more WARNING when the state is not "completed". *)
Theorem snapshot_size_and_state (size : Z) (state : string) :
  get_ebs_snapshot_info id = Ok {| VolumeSize := Some size; State := Some state |} ->
  exists by_size by_state,
    out = (Ok tt, by_size ++ by_state) /\
    (value volume_size < size ->
     by_size = [failure (smaller_than_snapshot_message size) ERROR [name volume_size]]) /\
    (value volume_size > size ->
     by_size =
     [failure (larger_than_snapshot_message get_partition) WARNING [name volume_size]]) /\
    (value volume_size = size -> by_size = []) /\
    (state <> "completed" ->
     by_state =
     [failure (not_completed_message id (Some state)) WARNING [name snapshot_id]]) /\
    (state = "completed" -> by_state = []).
Proof.
  intros Hfound. rewrite (snapshot_run_found _ Hfound).
  eexists _, _. split; [reflexivity|].
  subst size_failures state_failures. cbn [VolumeSize State].
  destruct (Z.ltb_spec (value volume_size) size) as [Hlt|Hge];
    [|destruct (Z.gtb_spec (value volume_size) size) as [Hgt|Hle]];
    (split; [intros; (reflexivity || lia)|]);
    (split; [intros; (reflexivity || lia)|]);
    (split; [intros; (reflexivity || lia)|]);
    case_bool_decide as Hstate;
    split; intros Hs; try reflexivity; congruence.
Qed.

(** C7. The size-comparison message built in the branch
    [volume_size < snapshot_volume_size] (lines 146-152, "must not be
    smaller than") ends with the placeholder in braces, left unformatted:
    its text is fixed by the snapshot size alone and does not carry the
    identifier. *)
Theorem smaller_than_snapshot_keeps_placeholder (size : Z) (state : option string) :
  get_ebs_snapshot_info id = Ok {| VolumeSize := Some size; State := state |} ->
  value volume_size < size ->
  exists rest,
    out =
    (Ok tt,
     failure (smaller_than_snapshot_message size) ERROR [name volume_size] :: rest) /\
    smaller_than_snapshot_message size =
    "The EBS volume size must not be smaller than " +:+ pretty size
      +:+ ", because it is the size of the provided snapshot " +:+ placeholder /\
    Py.contains placeholder (smaller_than_snapshot_message size) = true.
Proof.
  intros Hfound Hlt. rewrite (snapshot_run_found _ Hfound).
  subst size_failures. cbn [VolumeSize].
  destruct (Z.ltb_spec (value volume_size) size) as [_|?]; [|lia].
  eexists. split; [reflexivity|]. split; [reflexivity|].
  unfold smaller_than_snapshot_message.
  do 2 apply contains_prepend. reflexivity.
Qed.

(** C1, as amended.  A fault of the lookup that derives from [Exception]
    and is not a [ClientError] with one of the two recognised codes does
    not propagate: the run returns with the single generic ERROR failure
    that carries the message of the fault. *)
Theorem snapshot_unclassified_fault_is_reported (e : exn) :
  get_ebs_snapshot_info id = Raise e ->
  Py.is_Exception e = true ->
  ~ recognised_fault e ->
  well_formed_fault e ->
  out =
  (Ok tt,
   [failure (lookup_issue_message id (fault_detail e)) ERROR [name snapshot_id]]).
Proof.
  intros Hraised Hexc Hnot Hwf. rewrite (snapshot_run_raised _ Hraised), Hexc.
  unfold snapshot_handler, fault_detail.
  destruct e as [response| | | | | | | | |]; try reflexivity.
  destruct (Hwf response eq_refl) as [err Herr].
  run. unfold error_entry. rewrite Herr. simpl.
  assert (Hcode : bool_decide (Py.Code err = Some "InvalidSnapshot.NotFound")
                  || bool_decide (Py.Code err = Some "InvalidSnapshot.Malformed")
                  = false).
  { apply orb_false_iff. split; apply bool_decide_eq_false; intros Hc;
      apply Hnot; exists response, err; auto. }
  rewrite Hcode. reflexivity.
Qed.

(** The message of the branch [volume_size > snapshot_volume_size] is
    formatted with the documentation host alone: no placeholder is left. *)
Lemma larger_than_snapshot_formatted :
  Py.contains placeholder (larger_than_snapshot_message get_partition) = false.
Proof.
  unfold larger_than_snapshot_message.
  destruct (String.eqb get_partition "aws-cn"); vm_compute; reflexivity.
Qed.

(** A recognised fault is reported as a missing snapshot. *)
Lemma snapshot_recognised_fault_is_reported (response : Py.Response) (err : Py.ErrorDict) :
  get_ebs_snapshot_info id = Raise (ClientError response) ->
  Py.Error response = Some err ->
  Py.Code err = Some "InvalidSnapshot.NotFound"
  \/ Py.Code err = Some "InvalidSnapshot.Malformed" ->
  out =
  (Ok tt, [failure (not_found_message id (Py.Message err)) ERROR [name snapshot_id]]).
Proof.
  intros Hraised Herr Hcode. rewrite (snapshot_run_raised _ Hraised).
  unfold snapshot_handler. run. unfold error_entry. rewrite Herr. simpl.
  destruct Hcode as [-> | ->]; reflexivity.
Qed.

(** What does propagate: an exception outside the [Exception] hierarchy,
    and the [AttributeError] of the handler itself on a [ClientError]
    whose response has no ["Error"] entry. *)
Lemma snapshot_propagated_faults (e : exn) :
  get_ebs_snapshot_info id = Raise e ->
  (Py.is_Exception e = false -> out = (Raise e, [])) /\
  (forall response,
      e = ClientError response -> Py.Error response = None ->
      out = (Raise (AttributeError "'NoneType' object has no attribute 'get'"), [])).
Proof.
  intros Hraised. rewrite (snapshot_run_raised _ Hraised). split.
  - intros ->. reflexivity.
  - intros response -> Hnone. unfold snapshot_handler. run.
    unfold error_entry. rewrite Hnone. reflexivity.
Qed.

End SnapshotValidator.

Lemma snapshot_size_and_state_witness :
  exists by_size by_state,
    execute (EbsValidators.EbsVolumeSizeSnapshotValidator_validate
               Samples.pending_snapshot_50 "aws" (Samples.snapshot_id (Some "snap-0123"))
               (Samples.volume_size 40))
    = (Ok tt, by_size ++ by_state) /\
    by_size =
    [failure (EbsValidators.smaller_than_snapshot_message 50) ERROR ["volume_size"]] /\
    by_state =
    [failure "Snapshot snap-0123 is in state 'pending' not 'completed'"
       WARNING ["snapshot_id"]].
Proof.
  destruct (snapshot_size_and_state Samples.pending_snapshot_50 "aws"
              (Samples.snapshot_id (Some "snap-0123")) (Samples.volume_size 40)
              "snap-0123" eq_refl ltac:(discriminate) 50 "pending" eq_refl)
    as (by_size & by_state & Hrun & Hlt & _ & _ & Hstate & _).
  exists by_size, by_state. split; [exact Hrun|]. split.
  - apply Hlt. simpl. lia.
  - apply Hstate. discriminate.
Defined.

(** C1 fails on the code: a connection error of the lookup, which is no
    [ClientError] at all, does not reach the caller; the run returns and
    reports it as an ERROR failure. *)
Lemma snapshot_unclassified_fault_does_not_propagate :
  ~ recognised_fault
      (OtherException "EndpointConnectionError" "Could not connect to the endpoint URL")
  /\ execute (EbsValidators.EbsVolumeSizeSnapshotValidator_validate
                Samples.unreachable_service "aws" (Samples.snapshot_id (Some "snap-0123"))
                (Samples.volume_size 20))
     = (Ok tt,
        [failure
           "Issue getting info for snapshot snap-0123: Could not connect to the endpoint URL"
           ERROR ["snapshot_id"]])
  /\ outcome (execute (EbsValidators.EbsVolumeSizeSnapshotValidator_validate
                         Samples.unreachable_service "aws"
                         (Samples.snapshot_id (Some "snap-0123"))
                         (Samples.volume_size 20)))
     <> Raise (OtherException "EndpointConnectionError"
                 "Could not connect to the endpoint URL").
Proof.
  split; [|split].
  - intros (response & err & Heq & _). discriminate.
  - reflexivity.
  - discriminate.
Qed.

Lemma snapshot_unclassified_fault_is_reported_witness :
  execute (EbsValidators.EbsVolumeSizeSnapshotValidator_validate
             Samples.unreachable_service "aws" (Samples.snapshot_id (Some "snap-0123"))
             (Samples.volume_size 20))
  = (Ok tt,
     [failure
        (EbsValidators.lookup_issue_message "snap-0123"
           "Could not connect to the endpoint URL")
        ERROR ["snapshot_id"]]).
Proof.
  apply (snapshot_unclassified_fault_is_reported Samples.unreachable_service "aws"
           (Samples.snapshot_id (Some "snap-0123")) (Samples.volume_size 20)
           "snap-0123" eq_refl ltac:(discriminate)
           (OtherException "EndpointConnectionError"
              "Could not connect to the endpoint URL")).
  - reflexivity.
  - reflexivity.
  - intros (response & err & Heq & _). discriminate.
  - intros response Heq. discriminate.
Defined.

(** The other size branch, for comparison: the failure recorded when the
    volume is larger than the snapshot has the "larger than snapshot size"
    message, which contains no placeholder, in either partition. *)
Lemma larger_than_snapshot_has_no_placeholder :
  execute (EbsValidators.EbsVolumeSizeSnapshotValidator_validate
             Samples.completed_snapshot_50 "aws" (Samples.snapshot_id (Some "snap-0123"))
             (Samples.volume_size 60))
  = (Ok tt,
     [failure
        ("The specified volume size is larger than snapshot size. In order to use the full capacity "
           +:+ "of the volume, you'll need to manually resize the partition according to this doc: "
           +:+ "https://docs.aws.amazon.com/AWSEC2/latest/UserGuide/recognize-expanded-volume-linux.html")
        WARNING ["volume_size"]])
  /\ Py.contains placeholder (EbsValidators.larger_than_snapshot_message "aws") = false
  /\ Py.contains placeholder (EbsValidators.larger_than_snapshot_message "aws-cn") = false.
Proof. split; [|split]; vm_compute; reflexivity. Qed.

Lemma smaller_than_snapshot_keeps_placeholder_witness :
  exists rest,
    execute (EbsValidators.EbsVolumeSizeSnapshotValidator_validate
               Samples.completed_snapshot_50 "aws" (Samples.snapshot_id (Some "snap-0123"))
               (Samples.volume_size 40))
    = (Ok tt,
       failure (EbsValidators.smaller_than_snapshot_message 50) ERROR ["volume_size"]
         :: rest) /\
    EbsValidators.smaller_than_snapshot_message 50 =
    "The EBS volume size must not be smaller than " +:+ pretty 50
      +:+ ", because it is the size of the provided snapshot " +:+ placeholder /\
    Py.contains placeholder (EbsValidators.smaller_than_snapshot_message 50) = true.
Proof.
  apply (smaller_than_snapshot_keeps_placeholder Samples.completed_snapshot_50 "aws"
           (Samples.snapshot_id (Some "snap-0123")) (Samples.volume_size 40)
           "snap-0123" eq_refl ltac:(discriminate) 50 (Some "completed") eq_refl).
  simpl. lia.
Defined.

(** ** [UrlValidator] *)

Section Url.

Import S3Validators.

Variable urlparse_scheme : string -> string.
Variable head_object : string -> string -> result unit.
Variable urlopen : string -> result unit.

(** When the pattern does not match, the failure is recorded and the next
    statement, [match.group(1)] on [None], raises; the [except ClientError]
    clause does not apply. *)
Lemma s3_uri_no_match (s3_url : string) :
  Re.match_ s3_uri_re s3_url = None ->
  execute (_validate_s3_uri head_object s3_url)
  = (Raise (AttributeError "'NoneType' object has no attribute 'group'"),
     [invalid_s3_url s3_url]).
Proof.
  intros Hnone. unfold _validate_s3_uri. run. rewrite Hnone. reflexivity.
Qed.

(** The exception leaves [UrlValidator._validate] as well. *)
Lemma url_s3_no_match (url : Param string) :
  urlparse_scheme (value url) = "s3" ->
  Re.match_ s3_uri_re (value url) = None ->
  execute (UrlValidator_validate urlparse_scheme head_object urlopen url)
  = (Raise (AttributeError "'NoneType' object has no attribute 'group'"),
     [invalid_s3_url (value url)]).
Proof.
  intros Hscheme Hnone. unfold UrlValidator_validate. rewrite Hscheme.
  pose proof (s3_uri_no_match (value url) Hnone) as Hs3.
  unfold execute in *. unfold Common.bind. cbn [String.eqb].
  rewrite bool_decide_eq_true_2 by set_solver.
  simpl. rewrite Hs3. reflexivity.
Qed.

(** When the pattern matches, the outcome is that of the existence check:
    a [ClientError] becomes the ERROR failure, success records nothing. *)
Lemma s3_uri_match (s3_url bucket_name object_name whole : string) :
  Re.match_ s3_uri_re s3_url
  = Some {| Re.group0 := whole; Re.groups := [bucket_name; object_name] |} ->
  execute (_validate_s3_uri head_object s3_url)
  = match head_object bucket_name object_name with
    | Ok tt => (Ok tt, [])
    | Raise e =>
        if Py.is_ClientError e then
          (Ok tt,
           [failure
              ("The S3 object does not exist or you do not have access to it."
                 +:+ String Re.newline
                       "Please make sure the cluster nodes have access to it.")
              ERROR []])
        else (Raise e, [])
    end.
Proof.
  intros Hsome. unfold _validate_s3_uri. run. rewrite Hsome. simpl.
  destruct (head_object bucket_name object_name) as [[]|e]; [reflexivity|].
  destruct (Py.is_ClientError e); reflexivity.
Qed.

End Url.

(** C3, at the input where the code departs from it: for
    [s3://bucket-only] the ERROR failure is recorded, but the method does
    not return: [match.group(1)] raises [AttributeError], whatever the
    object-storage collaborator would answer. *)
Theorem s3_uri_bucket_only_raises :
  forall head_object,
    Re.match_ S3Validators.s3_uri_re "s3://bucket-only" = None /\
    execute (S3Validators._validate_s3_uri head_object "s3://bucket-only")
    = (Raise (AttributeError "'NoneType' object has no attribute 'group'"),
       [failure "s3 url 's3://bucket-only' is invalid." ERROR []]).
Proof. intros head_object. split; reflexivity. Qed.

Example url_bucket_only_raises :
  forall head_object urlopen,
    execute (S3Validators.UrlValidator_validate Samples.scheme_before_colon
               head_object urlopen
               {| Common.name := "url"; Common.value := "s3://bucket-only" |})
    = (Raise (AttributeError "'NoneType' object has no attribute 'group'"),
       [failure "s3 url 's3://bucket-only' is invalid." ERROR []]).
Proof. intros head_object urlopen. apply url_s3_no_match; reflexivity. Qed.

(** ** [CfnClient.list_pcluster_stacks] *)

Section ListStacks.

Import Cfn.

Variable PCLUSTER_STACK_PREFIX : string.
Variable handle_client_exception : result (list Stack) -> result (list Stack).

(** The decorator hands a normal return through unchanged. *)
Hypothesis handle_returns :
  forall stacks, handle_client_exception (Ok stacks) = Ok stacks.

(** On a stack that carries a name whenever it has no parent, the
    condition of the comprehension evaluates to the wanted predicate. *)
Lemma is_pcluster_stack_wanted (stack : Stack) :
  (stack !! "ParentId" = None -> is_Some (stack !! "StackName")) ->
  is_pcluster_stack PCLUSTER_STACK_PREFIX stack
  = Ok (wanted_stack PCLUSTER_STACK_PREFIX stack).
Proof.
  intros Hname. unfold is_pcluster_stack, wanted_stack.
  case_bool_decide as Hparent; [|reflexivity].
  destruct (Hname Hparent) as [stack_name ->]. reflexivity.
Qed.

(** The loop extends the list built so far by the wanted items, in order. *)
Lemma comprehension_filter (items built : list Stack) :
  (forall stack, In stack items ->
                 stack !! "ParentId" = None -> is_Some (stack !! "StackName")) ->
  comprehension PCLUSTER_STACK_PREFIX items built
  = Ok (built ++ List.filter (wanted_stack PCLUSTER_STACK_PREFIX) items).
Proof.
  revert built. induction items as [|stack rest IH]; intros built Hnames.
  - simpl. now rewrite app_nil_r.
  - cbn [comprehension List.filter].
    rewrite is_pcluster_stack_wanted by (apply Hnames; now left).
    cbn [Py.result_bind]. rewrite IH by (intros s Hs; apply Hnames; now right).
    destruct (wanted_stack PCLUSTER_STACK_PREFIX stack); [|reflexivity].
    now rewrite <- app_assoc.
Qed.

(** C8. Given the stacks the paginated call yields, each parentless one
    carrying its name, the method returns exactly the stacks that have no
    parent and whose name starts with the prefix, in their order. *)
Theorem list_pcluster_stacks_filters (stacks : list Stack) :
  (forall stack, In stack stacks ->
                 stack !! "ParentId" = None -> is_Some (stack !! "StackName")) ->
  list_pcluster_stacks PCLUSTER_STACK_PREFIX handle_client_exception stacks
  = Ok (List.filter (wanted_stack PCLUSTER_STACK_PREFIX) stacks).
Proof.
  intros Hnames. unfold list_pcluster_stacks.
  rewrite comprehension_filter by exact Hnames. apply handle_returns.
Qed.

(** What the filter keeps, spelled out: membership and order. *)
Lemma wanted_stack_spec (stack : Stack) :
  wanted_stack PCLUSTER_STACK_PREFIX stack = true <->
  stack !! "ParentId" = None /\
  exists stack_name,
    stack !! "StackName" = Some stack_name /\
    String.prefix PCLUSTER_STACK_PREFIX stack_name = true.
Proof.
  unfold wanted_stack. rewrite andb_true_iff, bool_decide_eq_true.
  destruct (stack !! "StackName") as [stack_name|].
  - split; [intros [Hp Hn]; eauto|].
    intros [Hp (n & Heq & Hn)]. injection Heq as ->. auto.
  - split; [intros [_ ?]; discriminate | intros [_ (n & Heq & _)]; discriminate].
Qed.

End ListStacks.

Lemma list_pcluster_stacks_filters_witness :
  Cfn.list_pcluster_stacks "parallelcluster-" Samples.relabel_client_error
    [Samples.nested_stack; Samples.cluster_stack; Samples.foreign_stack;
     Samples.cluster_stack]
  = Ok [Samples.cluster_stack; Samples.cluster_stack].
Proof.
  apply (list_pcluster_stacks_filters "parallelcluster-" Samples.relabel_client_error
           ltac:(reflexivity)
           [Samples.nested_stack; Samples.cluster_stack; Samples.foreign_stack;
            Samples.cluster_stack]).
  intros stack Hin _.
  simpl in Hin. destruct Hin as [<-|[<-|[<-|[<-|[]]]]]; vm_compute; eauto.
Defined.

(** ** [ImageSchema.validate_reserved_tag] *)

Lemma prefix_cons (a b : ascii) (w s : string) :
  String.prefix (String a w) (String b s) = Ascii.eqb b a && String.prefix w s.
Proof.
  simpl. destruct (ascii_dec a b) as [->|Hne].
  - now rewrite Ascii.eqb_refl.
  - destruct (Ascii.eqb_spec b a) as [->|_]; [contradiction|reflexivity].
Qed.

(** A repetition succeeds whenever what follows it always does. *)
Lemma star_succeeds (greedy : bool) (a : Re.atom)
    (k : string -> Re.state -> option Re.Match) :
  (forall s st, matched (k s st) = true) ->
  forall s st, matched (Re.star greedy a k s st) = true.
Proof.
  intros Hk s. induction s as [|c s IH]; intros st; simpl.
  - destruct greedy; destruct (k "" st) eqn:Hks; try reflexivity;
      specialize (Hk "" st); now rewrite Hks in Hk.
  - specialize (Hk (String c s) st).
    destruct (k (String c s) st) eqn:Hks; [|discriminate].
    destruct greedy; [|reflexivity].
    destruct (Re.accepts a c); [|reflexivity].
    specialize (IH (Re.take c st)).
    destruct (Re.star true a k s (Re.take c st)); [reflexivity|discriminate].
Qed.

(** A run of literals followed by a final repetition matches exactly the
    strings that start with the literals. *)
Lemma exec_lits_star (w : string) (greedy : bool) (a : Re.atom) :
  forall s st,
    matched (Re.exec (Re.lits w ++ [Re.Star greedy a]) s st) = String.prefix w s.
Proof.
  induction w as [|c w IH]; intros s st.
  - cbn [Re.lits app Re.exec].
    rewrite star_succeeds by reflexivity. now destruct s.
  - cbn [Re.lits app Re.exec]. destruct s as [|b s]; [reflexivity|].
    rewrite prefix_cons. cbn [Re.accepts].
    destruct (Ascii.eqb b c); [apply IH|reflexivity].
Qed.

Lemma reserved_tag_re_matches (key : string) :
  matched (Re.match_ ImagebuilderSchema.reserved_tag_re key)
  = String.prefix "pcluster" key.
Proof.
  unfold Re.match_, ImagebuilderSchema.reserved_tag_re.
  cbn [Re.exec Re.start Re.consumed String.eqb].
  apply exec_lits_star.
Qed.

Lemma reserved_tag_loop_spec (tags : list ImagebuilderSchema.Tag) :
  ImagebuilderSchema.reserved_tag_loop tags
  = if existsb begins_with_pcluster tags
    then Raise (ValidationError ImagebuilderSchema.reserved_tag_message)
    else Ok tt.
Proof.
  induction tags as [|tag rest IH]; [reflexivity|].
  cbn [ImagebuilderSchema.reserved_tag_loop existsb].
  unfold begins_with_pcluster at 1. rewrite <- reserved_tag_re_matches.
  destruct (Re.match_ ImagebuilderSchema.reserved_tag_re (ImagebuilderSchema.key tag));
    [reflexivity|exact IH].
Qed.

(** C10. The pattern matches a key exactly when the key begins with the
    letters [pcluster], with or without an underscore after them; the
    validator raises the error that names the prefix ['pcluster_'] as soon
    as one tag has such a key, so for [pcluster] and [pclusterXyz] too, and
    accepts the tags otherwise (and an absent list of tags). *)
Theorem reserved_tag_rejects_pcluster_keys :
  (forall key,
      matched (Re.match_ ImagebuilderSchema.reserved_tag_re key)
      = String.prefix "pcluster" key) /\
  (forall tags,
      ImagebuilderSchema.validate_reserved_tag (Some tags)
      = if existsb begins_with_pcluster tags
        then Raise (ValidationError
                      "The tag key prefix 'pcluster_' is reserved and cannot be used.")
        else Ok tt) /\
  ImagebuilderSchema.validate_reserved_tag None = Ok tt /\
  (forall v,
      ImagebuilderSchema.validate_reserved_tag
        (Some [{| ImagebuilderSchema.key := "pcluster"; ImagebuilderSchema.tag_value := v |}])
      = Raise (ValidationError
                 "The tag key prefix 'pcluster_' is reserved and cannot be used.")) /\
  (forall v,
      ImagebuilderSchema.validate_reserved_tag
        (Some [{| ImagebuilderSchema.key := "pclusterXyz";
                  ImagebuilderSchema.tag_value := v |}])
      = Raise (ValidationError
                 "The tag key prefix 'pcluster_' is reserved and cannot be used.")) /\
  (forall v,
      ImagebuilderSchema.validate_reserved_tag
        (Some [{| ImagebuilderSchema.key := "my_pcluster_tag";
                  ImagebuilderSchema.tag_value := v |}])
      = Ok tt).
Proof.
  split; [exact reserved_tag_re_matches|].
  split.
  - intros [|tag rest]; [reflexivity|].
    unfold ImagebuilderSchema.validate_reserved_tag. cbn [Py.truthy_list default].
    apply reserved_tag_loop_spec.
  - repeat split; intros; reflexivity.
Qed.

(** * Further properties of the validators *)

(** ** [EbsVolumeThroughputValidator] *)

Lemma throughput_validator_run (volume_type : Param string)
    (volume_throughput : Param (option Z)) :
  execute (EbsValidators.EbsVolumeThroughputValidator_validate
             volume_type volume_throughput)
  = if String.eqb (value volume_type) "gp3" then
      match value volume_throughput with
      | Some throughput =>
          (Ok tt,
           if (125 <=? throughput) && (throughput <=? 1000) then []
           else [failure
                   (EbsValidators.throughput_bounds_message 125 1000 (value volume_type))
                   ERROR [name volume_throughput]])
      | None => (Raise EbsValidators.compare_unset, [])
      end
    else (Ok tt, []).
Proof.
  unfold EbsValidators.EbsVolumeThroughputValidator_validate.
  destruct (String.eqb (value volume_type) "gp3"); [|reflexivity].
  destruct (value volume_throughput) as [throughput|]; [|reflexivity].
  cbv zeta beta iota.
  destruct (Z.ltb_spec throughput 125), (Z.gtb_spec throughput 1000),
    (Z.leb_spec 125 throughput), (Z.leb_spec throughput 1000);
    try lia; reflexivity.
Qed.

(** On gp3 a set throughput passes exactly within [125, 1000] MB/s, both
    ends included, and otherwise yields the single ERROR that names the
    bounds; an unset throughput makes the comparison raise; on every other
    type the validator does nothing, whatever the throughput. *)
Theorem throughput_validator_range :
  forall volume_type volume_throughput,
    (value volume_type = "gp3" ->
     forall throughput,
       value volume_throughput = Some throughput ->
       execute (EbsValidators.EbsVolumeThroughputValidator_validate
                  volume_type volume_throughput)
       = (Ok tt,
          if (125 <=? throughput) && (throughput <=? 1000) then []
          else [failure
                  "Throughput must be between 125 MB/s and 1000 MB/s when provisioning gp3 volumes."
                  ERROR [name volume_throughput]])) /\
    (value volume_type = "gp3" -> value volume_throughput = None ->
     execute (EbsValidators.EbsVolumeThroughputValidator_validate
                volume_type volume_throughput)
     = (Raise EbsValidators.compare_unset, [])) /\
    (value volume_type <> "gp3" ->
     execute (EbsValidators.EbsVolumeThroughputValidator_validate
                volume_type volume_throughput)
     = (Ok tt, [])).
Proof.
  intros volume_type volume_throughput. rewrite throughput_validator_run.
  split; [|split].
  - intros Hgp3 throughput ->. rewrite Hgp3. reflexivity.
  - intros -> ->. reflexivity.
  - intros Hne. destruct (String.eqb_spec (value volume_type) "gp3");
      [contradiction|reflexivity].
Qed.

Lemma throughput_validator_range_witness :
  execute (EbsValidators.EbsVolumeThroughputValidator_validate
             (Samples.volume_type "gp3") (Samples.volume_throughput (Some 125)))
  = (Ok tt, [])
  /\ execute (EbsValidators.EbsVolumeThroughputValidator_validate
                (Samples.volume_type "gp3") (Samples.volume_throughput (Some 1001)))
     = (Ok tt,
        [failure
           "Throughput must be between 125 MB/s and 1000 MB/s when provisioning gp3 volumes."
           ERROR ["volume_throughput"]])
  /\ execute (EbsValidators.EbsVolumeThroughputValidator_validate
                (Samples.volume_type "gp3") (Samples.volume_throughput None))
     = (Raise EbsValidators.compare_unset, [])
  /\ execute (EbsValidators.EbsVolumeThroughputValidator_validate
                (Samples.volume_type "gp2") (Samples.volume_throughput (Some 5)))
     = (Ok tt, []).
Proof.
  split; [|split; [|split]].
  - destruct (throughput_validator_range (Samples.volume_type "gp3")
                (Samples.volume_throughput (Some 125))) as (Hset & _).
    exact (Hset eq_refl 125 eq_refl).
  - destruct (throughput_validator_range (Samples.volume_type "gp3")
                (Samples.volume_throughput (Some 1001))) as (Hset & _).
    exact (Hset eq_refl 1001 eq_refl).
  - destruct (throughput_validator_range (Samples.volume_type "gp3")
                (Samples.volume_throughput None)) as (_ & Hunset & _).
    exact (Hunset eq_refl eq_refl).
  - destruct (throughput_validator_range (Samples.volume_type "gp2")
                (Samples.volume_throughput (Some 5))) as (_ & _ & Hother).
    apply Hother. discriminate.
Defined.

(** A throughput that the throughput validator accepts on gp3 is accepted
    by the throughput-to-IOPS validator as soon as the volume has 4000
    IOPS or more (an integer that converts to binary64 exactly): the cap
    of 1000 MB/s is a quarter of 4000. *)
Theorem accepted_throughput_within_ratio :
  forall float_repr volume_type volume_iops volume_throughput,
    exact_float (value volume_iops) ->
    value volume_type = "gp3" ->
    execute (EbsValidators.EbsVolumeThroughputValidator_validate
               volume_type volume_throughput) = (Ok tt, []) ->
    4000 <= value volume_iops ->
    execute (EbsValidators.EbsVolumeThroughputIopsValidator_validate float_repr
               volume_type volume_iops volume_throughput)
    = (Ok tt, []).
Proof.
  intros float_repr volume_type volume_iops volume_throughput _ Hgp3 Hpass Hiops.
  rewrite throughput_validator_run, Hgp3 in Hpass.
  rewrite throughput_iops_run, Hgp3. cbn [String.eqb Ascii.eqb Bool.eqb andb] in *.
  destruct (value volume_throughput) as [throughput|] eqn:Htp; [|reflexivity].
  destruct (Z.leb_spec 125 throughput), (Z.leb_spec throughput 1000);
    simpl in Hpass; try discriminate.
  destruct (Z.eqb_spec throughput 0); [lia|].
  destruct (Z.gtb_spec (4 * throughput) (value volume_iops)); [lia|reflexivity].
Qed.

Lemma accepted_throughput_within_ratio_witness :
  execute (EbsValidators.EbsVolumeThroughputIopsValidator_validate Samples.float_repr
             (Samples.volume_type "gp3") (Samples.volume_iops 4000)
             (Samples.volume_throughput (Some 1000)))
  = (Ok tt, []).
Proof.
  apply accepted_throughput_within_ratio;
    [unfold exact_float; simpl; lia|reflexivity|reflexivity|simpl; lia].
Defined.

(** ** [EBSVolumeKmsKeyIdValidator] *)

(** The validator records its ERROR exactly when a non-empty key id comes
    with an encryption flag that is false or unset; the failure implicates
    the encryption flag, not the key.  An empty key id counts as no key. *)
Theorem kms_key_requires_encryption :
  forall volume_kms_key_id volume_encrypted,
    execute (EbsValidators.EBSVolumeKmsKeyIdValidator_validate
               volume_kms_key_id volume_encrypted)
    = (Ok tt,
       match value volume_kms_key_id, value volume_encrypted with
       | None, _ | Some "", _ | Some _, Some true => []
       | Some key, _ =>
           [failure
              ("Kms Key Id " +:+ key +:+ " is specified, the encrypted state must be True.")
              ERROR [name volume_encrypted]]
       end).
Proof.
  intros volume_kms_key_id volume_encrypted.
  unfold EbsValidators.EBSVolumeKmsKeyIdValidator_validate.
  destruct (value volume_kms_key_id) as [[|c key]|]; try reflexivity.
  destruct (value volume_encrypted) as [[|]|]; reflexivity.
Qed.

(** ** [EbsVolumeIopsValidator], further *)

Section IopsFurther.

Import EbsValidators.

Variable sizes : gmap string (Z * Z).
Variable bounds : gmap string (Z * Z).
Variable ratios : gmap string Z.
Variable float_repr : Q -> string.
Variables (volume_type : Param string) (volume_size : Param Z)
  (volume_iops : Param (option Z)).

Let out :=
  execute (EbsVolumeIopsValidator_validate bounds ratios float_repr
             volume_type volume_size volume_iops).

(** An IOPS value of zero is treated like an unset one: it passes every
    check, also for a type whose lower IOPS bound is positive. *)
Theorem iops_zero_is_unset :
  value volume_iops = Some 0 -> out = (Ok tt, []).
Proof.
  intros Hi. subst out. rewrite iops_run, Hi.
  destruct (bounds !! value volume_type) as [[min_iops max_iops]|]; reflexivity.
Qed.

(** Whatever the validator records is at most one failure, of level ERROR,
    and it implicates [volume_iops] alone. *)
Theorem iops_failure_shape :
  (length (failures out) <= 1)%nat /\
  Forall (fun f => Common.level f = ERROR /\ Common.params f = [name volume_iops])
    (failures out).
Proof.
  subst out. rewrite iops_run.
  repeat (match goal with
          | |- context [match ?x with _ => _ end] => destruct x
          end); simpl; (split; [lia|]); repeat constructor.
Qed.

(** A type that has IOPS bounds but no entry in the ratio table: a set
    IOPS value within the bounds makes the lookup of the cap raise
    [KeyError], naming the type; outside the bounds the missing entry goes
    unnoticed. *)
Theorem iops_missing_ratio (min_iops max_iops iops : Z) :
  bounds !! value volume_type = Some (min_iops, max_iops) ->
  ratios !! value volume_type = None ->
  value volume_iops = Some iops -> iops <> 0 ->
  out =
  if (iops <? min_iops) || (iops >? max_iops) then
    (Ok tt,
     [failure (iops_bounds_message min_iops max_iops (value volume_type))
        ERROR [name volume_iops]])
  else (Raise (KeyError (value volume_type)), []).
Proof.
  intros Hb Hr Hi Hnz. subst out. rewrite iops_run, Hb, Hi, Hr.
  destruct (Z.eqb_spec iops 0); [contradiction|reflexivity].
Qed.

(** When the size validator accepts the volume for a type whose smallest
    size is positive, the IOPS validator cannot divide by zero: with a cap
    on record for the type it returns. *)
Theorem accepted_size_keeps_iops_total (min_size max_size cap : Z) :
  sizes !! value volume_type = Some (min_size, max_size) ->
  0 < min_size ->
  execute (EbsVolumeTypeSizeValidator_validate sizes volume_type volume_size)
  = (Ok tt, []) ->
  ratios !! value volume_type = Some cap ->
  outcome out = Ok tt.
Proof.
  intros Hs Hpos Hpass Hr. subst out.
  rewrite type_size_run, Hs in Hpass.
  assert (Hsize : value volume_size <> 0).
  { destruct (Z.gtb_spec (value volume_size) max_size); [discriminate|].
    destruct (Z.ltb_spec (value volume_size) min_size); [discriminate|lia]. }
  rewrite iops_run, Hr.
  destruct (bounds !! value volume_type) as [[min_iops max_iops]|]; [|reflexivity].
  destruct (value volume_iops) as [iops|]; [|reflexivity].
  destruct (iops =? 0); [reflexivity|].
  destruct ((iops <? min_iops) || (iops >? max_iops)); [reflexivity|].
  destruct (iops >? value volume_size * cap); [|reflexivity].
  destruct (Z.eqb_spec (value volume_size) 0); [contradiction|reflexivity].
Qed.

End IopsFurther.

Lemma iops_zero_is_unset_witness :
  Samples.iops_bounds !! "gp3" = Some (3000, 16000) /\
  execute (EbsValidators.EbsVolumeIopsValidator_validate
             Samples.iops_bounds Samples.iops_ratio Samples.float_repr
             (Samples.volume_type "gp3") (Samples.volume_size 100)
             (Samples.volume_iops_opt (Some 0)))
  = (Ok tt, []).
Proof.
  split; [reflexivity|].
  apply (iops_zero_is_unset Samples.iops_bounds Samples.iops_ratio Samples.float_repr
           (Samples.volume_type "gp3") (Samples.volume_size 100)
           (Samples.volume_iops_opt (Some 0))).
  reflexivity.
Defined.

Lemma iops_missing_ratio_witness :
  execute (EbsValidators.EbsVolumeIopsValidator_validate
             Samples.iops_bounds (delete "io2" Samples.iops_ratio) Samples.float_repr
             (Samples.volume_type "io2") (Samples.volume_size 100)
             (Samples.volume_iops_opt (Some 5000)))
  = (Raise (KeyError "io2"), []).
Proof.
  apply (iops_missing_ratio Samples.iops_bounds (delete "io2" Samples.iops_ratio)
           Samples.float_repr (Samples.volume_type "io2") (Samples.volume_size 100)
           (Samples.volume_iops_opt (Some 5000)) 100 256000 5000);
    [reflexivity|reflexivity|reflexivity|lia].
Defined.

Lemma accepted_size_keeps_iops_total_witness :
  outcome (execute (EbsValidators.EbsVolumeIopsValidator_validate
                      Samples.iops_bounds Samples.iops_ratio Samples.float_repr
                      (Samples.volume_type "io1") (Samples.volume_size 4)
                      (Samples.volume_iops_opt (Some 201))))
  = Ok tt.
Proof.
  apply (accepted_size_keeps_iops_total Samples.size_bounds Samples.iops_bounds
           Samples.iops_ratio Samples.float_repr (Samples.volume_type "io1")
           (Samples.volume_size 4) (Samples.volume_iops_opt (Some 201)) 4 16384 50);
    [reflexivity|lia|reflexivity|reflexivity].
Defined.

(** ** [EbsVolumeSizeSnapshotValidator], further *)

(** Without a snapshot id (unset, or the empty string) the validator does
    nothing and the lookup is not consulted: the run is the same for every
    lookup, also one that would raise. *)
Theorem snapshot_unset_is_skipped :
  forall get_ebs_snapshot_info get_partition snapshot_id volume_size,
    value snapshot_id = None \/ value snapshot_id = Some "" ->
    execute (EbsValidators.EbsVolumeSizeSnapshotValidator_validate
               get_ebs_snapshot_info get_partition snapshot_id volume_size)
    = (Ok tt, []).
Proof.
  intros get_ebs_snapshot_info get_partition snapshot_id volume_size Hunset.
  unfold EbsValidators.EbsVolumeSizeSnapshotValidator_validate.
  destruct Hunset as [-> | ->]; reflexivity.
Qed.

Lemma snapshot_unset_is_skipped_witness :
  execute (EbsValidators.EbsVolumeSizeSnapshotValidator_validate
             Samples.interrupted_lookup "aws" (Samples.snapshot_id (Some ""))
             (Samples.volume_size 20))
  = (Ok tt, []).
Proof.
  apply snapshot_unset_is_skipped. right. reflexivity.
Defined.

Section SnapshotFurther.

Import EbsValidators.

Variable get_ebs_snapshot_info : string -> result Snapshot.
Variable get_partition : string.
Variables (snapshot_id : Param (option string)) (volume_size : Param Z).
Variable id : string.

Hypothesis snapshot_id_set : value snapshot_id = Some id.
Hypothesis snapshot_id_nonempty : id <> "".

Let out :=
  execute (EbsVolumeSizeSnapshotValidator_validate get_ebs_snapshot_info get_partition
             snapshot_id volume_size).

(** A record without a size entry yields the ERROR "unable to get volume
    size", whatever the size of the volume, and the state is still
    checked: a record that has no state entry either adds the WARNING for
    a state rendered as [None]. *)
Theorem snapshot_without_size (state : option string) :
  get_ebs_snapshot_info id = Ok {| VolumeSize := None; State := state |} ->
  out =
  (Ok tt,
   failure (no_volume_size_message id) ERROR [name snapshot_id]
     :: if bool_decide (state = Some "completed") then []
        else [failure
                ("Snapshot " +:+ id +:+ " is in state '" +:+ default "None" state
                   +:+ "' not 'completed'")
                WARNING [name snapshot_id]]).
Proof.
  intros Hfound. subst out.
  rewrite (snapshot_run_found _ _ _ _ _ snapshot_id_set snapshot_id_nonempty _ Hfound).
  cbn [VolumeSize State]. case_bool_decide; reflexivity.
Qed.

(** A lookup that returns never makes the validator raise, and leaves at
    most two failures: at most one about the size, at most one about the
    state. *)
Theorem snapshot_found_at_most_two (snapshot : Snapshot) :
  get_ebs_snapshot_info id = Ok snapshot ->
  outcome out = Ok tt /\ (length (failures out) <= 2)%nat.
Proof.
  intros Hfound. subst out.
  rewrite (snapshot_run_found _ _ _ _ _ snapshot_id_set snapshot_id_nonempty _ Hfound).
  split; [reflexivity|]. unfold failures. cbn [snd].
  rewrite length_app.
  destruct (VolumeSize snapshot) as [size|];
    [destruct (value volume_size <? size); [|destruct (value volume_size >? size)]|];
    case_bool_decide; simpl; lia.
Qed.

End SnapshotFurther.

Lemma snapshot_without_size_witness :
  execute (EbsValidators.EbsVolumeSizeSnapshotValidator_validate
             Samples.bare_snapshot "aws" (Samples.snapshot_id (Some "snap-0123"))
             (Samples.volume_size 20))
  = (Ok tt,
     [failure "Unable to get volume size for snapshot snap-0123" ERROR ["snapshot_id"];
      failure "Snapshot snap-0123 is in state 'None' not 'completed'"
        WARNING ["snapshot_id"]]).
Proof.
  apply (snapshot_without_size Samples.bare_snapshot "aws"
           (Samples.snapshot_id (Some "snap-0123")) (Samples.volume_size 20)
           "snap-0123" eq_refl ltac:(discriminate) None eq_refl).
Defined.

Lemma snapshot_found_at_most_two_witness :
  outcome (execute (EbsValidators.EbsVolumeSizeSnapshotValidator_validate
                      Samples.pending_snapshot_50 "aws"
                      (Samples.snapshot_id (Some "snap-0123"))
                      (Samples.volume_size 40)))
  = Ok tt
  /\ (length (failures (execute (EbsValidators.EbsVolumeSizeSnapshotValidator_validate
                                   Samples.pending_snapshot_50 "aws"
                                   (Samples.snapshot_id (Some "snap-0123"))
                                   (Samples.volume_size 40)))) <= 2)%nat.
Proof.
  apply (snapshot_found_at_most_two Samples.pending_snapshot_50 "aws"
           (Samples.snapshot_id (Some "snap-0123")) (Samples.volume_size 40)
           "snap-0123" eq_refl ltac:(discriminate) _ eq_refl).
Defined.

Lemma snapshot_recognised_fault_is_reported_witness :
  execute (EbsValidators.EbsVolumeSizeSnapshotValidator_validate
             Samples.missing_snapshot "aws" (Samples.snapshot_id (Some "snap-0123"))
             (Samples.volume_size 20))
  = (Ok tt,
     [failure
        "The snapshot snap-0123 does not appear to exist: The snapshot 'snap-0123' does not exist."
        ERROR ["snapshot_id"]]).
Proof.
  apply (snapshot_recognised_fault_is_reported Samples.missing_snapshot "aws"
           (Samples.snapshot_id (Some "snap-0123")) (Samples.volume_size 20)
           "snap-0123" eq_refl ltac:(discriminate) _ _ eq_refl eq_refl).
  left. reflexivity.
Defined.

Lemma snapshot_propagated_faults_witness :
  execute (EbsValidators.EbsVolumeSizeSnapshotValidator_validate
             Samples.interrupted_lookup "aws" (Samples.snapshot_id (Some "snap-0123"))
             (Samples.volume_size 20))
  = (Raise (BaseException "KeyboardInterrupt"), [])
  /\ execute (EbsValidators.EbsVolumeSizeSnapshotValidator_validate
                Samples.garbled_fault "aws" (Samples.snapshot_id (Some "snap-0123"))
                (Samples.volume_size 20))
     = (Raise (AttributeError "'NoneType' object has no attribute 'get'"), []).
Proof.
  split.
  - destruct (snapshot_propagated_faults Samples.interrupted_lookup "aws"
                (Samples.snapshot_id (Some "snap-0123")) (Samples.volume_size 20)
                "snap-0123" eq_refl ltac:(discriminate) _ eq_refl) as [Hbase _].
    apply Hbase. reflexivity.
  - destruct (snapshot_propagated_faults Samples.garbled_fault "aws"
                (Samples.snapshot_id (Some "snap-0123")) (Samples.volume_size 20)
                "snap-0123" eq_refl ltac:(discriminate) _ eq_refl) as [_ Hclient].
    apply (Hclient {| Py.Error := None |}); reflexivity.
Defined.

(** ** [UrlValidator], further *)

Section UrlFurther.

Import S3Validators.

Variable urlparse_scheme : string -> string.
Variable head_object : string -> string -> result unit.
Variable urlopen : string -> result unit.
Variable url : Param string.

Let out := execute (UrlValidator_validate urlparse_scheme head_object urlopen url).

(** A URL whose scheme is none of https, s3 and file (an empty scheme
    included) gets the single ERROR that names the accepted schemes; no
    collaborator is consulted. *)
Theorem url_other_scheme_rejected :
  urlparse_scheme (value url) <> "https" ->
  urlparse_scheme (value url) <> "s3" ->
  urlparse_scheme (value url) <> "file" ->
  out =
  (Ok tt,
   [failure
      ("The value '" +:+ value url
         +:+ "' is not a valid URL, choose URL with 'https', 's3' or 'file' prefix.")
      ERROR [name url]]).
Proof.
  intros Hhttps Hs3 Hfile. subst out. unfold UrlValidator_validate.
  rewrite bool_decide_eq_false_2; [reflexivity|].
  rewrite !elem_of_cons, elem_of_nil. tauto.
Qed.

(** A file URL is accepted as it is: nothing is recorded and neither the
    object store nor the network is consulted. *)
Theorem url_file_accepted :
  urlparse_scheme (value url) = "file" -> out = (Ok tt, []).
Proof.
  intros Hfile. subst out. unfold UrlValidator_validate. rewrite Hfile.
  reflexivity.
Qed.

(** An https URL is judged by the fetch alone: an HTTP status fault or a
    connection fault only warns, a malformed URL is an ERROR on the [url]
    parameter, a fetch that succeeds records nothing, and any other
    exception leaves the validator with nothing recorded.  The object store
    is not consulted. *)
Theorem url_https_outcomes :
  urlparse_scheme (value url) = "https" ->
  out =
  match urlopen (value url) with
  | Ok _ => (Ok tt, [])
  | Raise (HTTPError code reason) =>
      (Ok tt,
       [failure
          ("The url '" +:+ value url +:+ "' cause HTTPError, the error code is '"
             +:+ pretty code +:+ "', the error reason is '" +:+ reason +:+ "'")
          WARNING []])
  | Raise (URLError reason) =>
      (Ok tt,
       [failure
          ("The url '" +:+ value url +:+ "' causes URLError, the error reason is '"
             +:+ reason +:+ "'")
          WARNING []])
  | Raise (ValueError _) =>
      (Ok tt,
       [failure ("The value '" +:+ value url +:+ "' is not a valid URL")
          ERROR [name url]])
  | Raise e => (Raise e, [])
  end.
Proof.
  intros Hhttps. subst out. unfold UrlValidator_validate. rewrite Hhttps.
  run. destruct (urlopen (value url)) as [[]|[]]; reflexivity.
Qed.

End UrlFurther.

Lemma url_other_scheme_rejected_witness :
  execute (S3Validators.UrlValidator_validate Samples.scheme_before_colon
             Samples.one_object Samples.forbidden_fetch (Samples.url "ftp://host/path"))
  = (Ok tt,
     [failure
        "The value 'ftp://host/path' is not a valid URL, choose URL with 'https', 's3' or 'file' prefix."
        ERROR ["url"]]).
Proof.
  apply (url_other_scheme_rejected Samples.scheme_before_colon Samples.one_object
           Samples.forbidden_fetch (Samples.url "ftp://host/path")); discriminate.
Defined.

Lemma url_file_accepted_witness :
  execute (S3Validators.UrlValidator_validate Samples.scheme_before_colon
             Samples.one_object Samples.forbidden_fetch (Samples.url "file:///etc/x"))
  = (Ok tt, []).
Proof.
  apply (url_file_accepted Samples.scheme_before_colon Samples.one_object
           Samples.forbidden_fetch (Samples.url "file:///etc/x")).
  reflexivity.
Defined.

Lemma url_https_outcomes_witness :
  execute (S3Validators.UrlValidator_validate Samples.scheme_before_colon
             Samples.one_object Samples.forbidden_fetch
             (Samples.url "https://example.org/install.sh"))
  = (Ok tt,
     [failure
        "The url 'https://example.org/install.sh' cause HTTPError, the error code is '403', the error reason is 'Forbidden'"
        WARNING []]).
Proof.
  apply (url_https_outcomes Samples.scheme_before_colon Samples.one_object
           Samples.forbidden_fetch (Samples.url "https://example.org/install.sh")).
  reflexivity.
Defined.

(** ** The pattern of [_validate_s3_uri] *)

Lemma string_app_assoc (a b c : string) : (a +:+ b) +:+ c = a +:+ (b +:+ c).
Proof.
  induction a as [|x a IH]; [reflexivity|].
  change (String x ((a +:+ b) +:+ c) = String x (a +:+ (b +:+ c))).
  f_equal. exact IH.
Qed.

Lemma string_app_nil_r (a : string) : a +:+ "" = a.
Proof.
  induction a as [|x a IH]; [reflexivity|].
  change (String x (a +:+ "") = String x a). f_equal. exact IH.
Qed.

Lemma advance_nil (st : Re.state) : advance "" st = st.
Proof.
  destruct st as [consumed closed [g|]]; unfold advance; simpl;
    now rewrite ?string_app_nil_r.
Qed.

Lemma advance_take (c : ascii) (w : string) (st : Re.state) :
  advance w (Re.take c st) = advance (String c w) st.
Proof.
  destruct st as [consumed closed [g|]]; unfold advance, Re.take; simpl;
    now rewrite ?string_app_assoc.
Qed.

Lemma star_nil greedy a k st : Re.star greedy a k "" st = k "" st.
Proof. destruct greedy; simpl; now destruct (k "" st). Qed.

Lemma star_lazy_cons a k c s st :
  Re.star false a k (String c s) st
  = match k (String c s) st with
    | Some m => Some m
    | None => if Re.accepts a c then Re.star false a k s (Re.take c st) else None
    end.
Proof. reflexivity. Qed.

Lemma star_greedy_cons a k c s st :
  Re.star true a k (String c s) st
  = match (if Re.accepts a c then Re.star true a k s (Re.take c st) else None) with
    | Some m => Some m
    | None => k (String c s) st
    end.
Proof. reflexivity. Qed.

(** The lazy group runs up to the first slash when what follows the group
    cannot start on any other character. *)
Lemma lazy_star_to_slash k bucket tail st m :
  (forall b r st', Ascii.eqb b "/" = false -> k (String b r) st' = None) ->
  free_of "/" bucket = true -> free_of Re.newline bucket = true ->
  k (String "/" tail) (advance bucket st) = Some m ->
  Re.star false Re.Dot k (bucket +:+ String "/" tail) st = Some m.
Proof.
  intros Hk. revert st. induction bucket as [|b bucket IH]; intros st Hslash Hline Hm.
  - rewrite advance_nil in Hm. change ("" +:+ String "/" tail) with (String "/" tail).
    rewrite star_lazy_cons. now rewrite Hm.
  - simpl in Hslash, Hline.
    apply andb_true_iff in Hslash as [Hb Hslash].
    apply andb_true_iff in Hline as [Hnl Hline].
    apply negb_true_iff in Hb.
    change (String b bucket +:+ String "/" tail)
      with (String b (bucket +:+ String "/" tail)).
    rewrite star_lazy_cons, (Hk _ _ _ Hb). cbn [Re.accepts]. rewrite Hnl.
    apply IH; [assumption|assumption|]. now rewrite advance_take.
Qed.

(** The greedy group runs to the end of the line. *)
Lemma greedy_star_to_line_end key rest st :
  free_of Re.newline key = true -> at_line_end rest = true ->
  Re.star true Re.Dot (Re.exec [Re.GroupClose]) (key +:+ rest) st
  = Re.exec [Re.GroupClose] rest (advance key st).
Proof.
  revert st. induction key as [|c key IH]; intros st Hline Hend.
  - rewrite advance_nil. change ("" +:+ rest) with rest.
    destruct rest as [|b rest]; [reflexivity|].
    rewrite star_greedy_cons. cbn [Re.accepts]. simpl in Hend. now rewrite Hend.
  - simpl in Hline. apply andb_true_iff in Hline as [Hnl Hline].
    change (String c key +:+ rest) with (String c (key +:+ rest)).
    rewrite star_greedy_cons. cbn [Re.accepts]. rewrite Hnl.
    rewrite (IH _ Hline Hend), advance_take. reflexivity.
Qed.

Lemma s3_uri_re_splits (bucket key rest : string) :
  free_of "/" bucket = true -> free_of Re.newline bucket = true ->
  free_of Re.newline key = true -> at_line_end rest = true ->
  Re.match_ S3Validators.s3_uri_re ("s3://" +:+ bucket +:+ "/" +:+ key +:+ rest)
  = Some {| Re.group0 := "s3://" +:+ bucket +:+ "/" +:+ key;
            Re.groups := [bucket; key] |}.
Proof.
  intros Hslash Hline Hkey Hend.
  unfold Re.match_, S3Validators.s3_uri_re.
  cbn [Re.lits app append Re.exec Re.accepts Ascii.eqb Bool.eqb Re.start].
  change ("/" +:+ key +:+ rest) with (String "/" (key +:+ rest)).
  apply lazy_star_to_slash; try assumption.
  - intros b r st' Hb. cbn [Re.exec Re.accepts]. now rewrite Hb.
  - cbn [Re.exec Re.accepts Ascii.eqb Bool.eqb].
    rewrite (greedy_star_to_line_end _ _ _ Hkey Hend).
    cbn. rewrite !string_app_assoc. reflexivity.
Qed.

(** A URL put together from a bucket without slash and a key splits back
    into that bucket and that key (a key may contain slashes, and both may
    be empty); the match stops at the end of the first line. *)
Theorem s3_uri_splits_bucket_and_key (bucket key rest : string) :
  free_of "/" bucket = true -> free_of Re.newline bucket = true ->
  free_of Re.newline key = true -> at_line_end rest = true ->
  Re.match_ S3Validators.s3_uri_re ("s3://" +:+ bucket +:+ "/" +:+ key +:+ rest)
  = Some {| Re.group0 := "s3://" +:+ bucket +:+ "/" +:+ key;
            Re.groups := [bucket; key] |}.
Proof. exact (s3_uri_re_splits bucket key rest). Qed.

Lemma s3_uri_splits_bucket_and_key_witness :
  Re.match_ S3Validators.s3_uri_re "s3://artifacts/post/install.sh"
  = Some {| Re.group0 := "s3://artifacts/post/install.sh";
            Re.groups := ["artifacts"; "post/install.sh"] |}.
Proof.
  apply (s3_uri_splits_bucket_and_key "artifacts" "post/install.sh" "");
    reflexivity.
Defined.

(** For a URL of the form [s3://bucket/key] the existence check is made
    for exactly that bucket and that key, and its answer alone decides: a
    success records nothing, a [ClientError] becomes the single ERROR, and
    any other exception of the object store leaves the validator. *)
Theorem s3_check_asks_for_bucket_and_key (head_object : string -> string -> result unit)
    (bucket key : string) :
  free_of "/" bucket = true -> free_of Re.newline bucket = true ->
  free_of Re.newline key = true ->
  execute (S3Validators._validate_s3_uri head_object
             ("s3://" +:+ bucket +:+ "/" +:+ key))
  = match head_object bucket key with
    | Ok _ => (Ok tt, [])
    | Raise e =>
        if Py.is_ClientError e then
          (Ok tt,
           [failure
              ("The S3 object does not exist or you do not have access to it."
                 +:+ String Re.newline
                       "Please make sure the cluster nodes have access to it.")
              ERROR []])
        else (Raise e, [])
    end.
Proof.
  intros Hslash Hline Hkey.
  pose proof (s3_uri_re_splits bucket key "" Hslash Hline Hkey eq_refl) as Hsplit.
  rewrite string_app_nil_r in Hsplit.
  rewrite (s3_uri_match head_object _ _ _ _ Hsplit).
  destruct (head_object bucket key) as [[]|e]; reflexivity.
Qed.

Lemma s3_check_asks_for_bucket_and_key_witness :
  execute (S3Validators._validate_s3_uri Samples.one_object
             "s3://artifacts/post/install.sh")
  = (Ok tt, [])
  /\ execute (S3Validators._validate_s3_uri Samples.one_object
                "s3://artifacts/post/missing.sh")
     = (Ok tt,
        [failure
           ("The S3 object does not exist or you do not have access to it."
              +:+ String Re.newline
                    "Please make sure the cluster nodes have access to it.")
           ERROR []]).
Proof.
  split.
  - apply (s3_check_asks_for_bucket_and_key Samples.one_object
             "artifacts" "post/install.sh"); reflexivity.
  - apply (s3_check_asks_for_bucket_and_key Samples.one_object
             "artifacts" "post/missing.sh"); reflexivity.
Defined.

(** A run of literals fails on a string that does not start with them. *)
Lemma exec_lits_mismatch (w : string) (p : Re.pattern) :
  forall s st, String.prefix w s = false -> Re.exec (Re.lits w ++ p) s st = None.
Proof.
  induction w as [|c w IH]; intros s st Hprefix.
  - destruct s; discriminate.
  - cbn [Re.lits app Re.exec]. destruct s as [|b s]; [reflexivity|].
    rewrite prefix_cons in Hprefix. cbn [Re.accepts].
    destruct (Ascii.eqb b c); [apply IH; exact Hprefix|reflexivity].
Qed.

(** After [s3://], the lazy group finds its slash exactly when there is
    one on the first line. *)
Lemma lazy_star_finds_slash (rest : string) (st : Re.state) :
  matched
    (Re.star false Re.Dot
       (Re.exec [Re.GroupClose; Re.One (Re.Lit "/"); Re.GroupOpen;
                 Re.Star true Re.Dot; Re.GroupClose])
       rest st)
  = slash_on_first_line rest.
Proof.
  set (k := Re.exec [Re.GroupClose; Re.One (Re.Lit "/"); Re.GroupOpen;
                     Re.Star true Re.Dot; Re.GroupClose]).
  assert (Hk : forall b r st,
             k (String b r) st
             = if Ascii.eqb b "/" then
                 Re.star true Re.Dot (Re.exec [Re.GroupClose]) r
                   (Re.open_group (Re.take b (Re.close_group st)))
               else None) by reflexivity.
  revert st. induction rest as [|b rest IH]; intros st.
  - reflexivity.
  - rewrite star_lazy_cons, Hk. cbn [slash_on_first_line Re.accepts].
    destruct (Ascii.eqb b "/") eqn:Hb.
    + pose proof (star_succeeds true Re.Dot (Re.exec [Re.GroupClose])
                    (fun _ _ => eq_refl) rest
                    (Re.open_group (Re.take b (Re.close_group st)))) as Hsome.
      destruct (Re.star true Re.Dot (Re.exec [Re.GroupClose]) rest
                  (Re.open_group (Re.take b (Re.close_group st))));
        [reflexivity|discriminate].
    + destruct (Ascii.eqb b Re.newline); [reflexivity|]. cbn [negb]. apply IH.
Qed.

(** The pattern accepts exactly the URLs that start with [s3://] (in lower
    case) and have a slash on the first line after it; every other URL,
    [S3://bucket/key] for one, is not matched. *)
Theorem s3_uri_accepted_iff_slash :
  (forall url,
      String.prefix "s3://" url = false ->
      Re.match_ S3Validators.s3_uri_re url = None) /\
  (forall rest,
      matched (Re.match_ S3Validators.s3_uri_re ("s3://" +:+ rest))
      = slash_on_first_line rest).
Proof.
  split.
  - intros url Hprefix. unfold Re.match_, S3Validators.s3_uri_re.
    now apply exec_lits_mismatch.
  - intros rest. unfold Re.match_, S3Validators.s3_uri_re.
    cbn [Re.lits app append Re.exec Re.accepts Ascii.eqb Bool.eqb Re.start].
    apply lazy_star_finds_slash.
Qed.

Lemma s3_uri_accepted_iff_slash_witness :
  Re.match_ S3Validators.s3_uri_re "S3://bucket/key" = None.
Proof.
  destruct s3_uri_accepted_iff_slash as [Hprefix _].
  apply Hprefix. reflexivity.
Defined.

(** ** [CfnClient], further *)

Section ListStacksFurther.

Import Cfn.

Variable PCLUSTER_STACK_PREFIX : string.
Variable handle_client_exception : result (list Stack) -> result (list Stack).

(** Once an item has made the condition raise, the items after it are not
    looked at and what was built is lost. *)
Lemma comprehension_raises (before after : list Stack) (stack : Stack) (built : list Stack) :
  (forall s, In s before -> s !! "ParentId" = None -> is_Some (s !! "StackName")) ->
  stack !! "ParentId" = None -> stack !! "StackName" = None ->
  comprehension PCLUSTER_STACK_PREFIX (before ++ stack :: after) built
  = Raise (AttributeError "'NoneType' object has no attribute 'startswith'").
Proof.
  revert built. induction before as [|s before IH]; intros built Hnames Hparent Hname.
  - cbn [app comprehension]. unfold is_pcluster_stack.
    rewrite bool_decide_eq_true_2 by exact Hparent. now rewrite Hname.
  - cbn [app comprehension].
    rewrite (is_pcluster_stack_wanted PCLUSTER_STACK_PREFIX s)
      by (apply Hnames; now left).
    cbn [Py.result_bind]. apply IH; [|assumption|assumption].
    intros s' Hs'. apply Hnames. now right.
Qed.

(** A single stack that has neither a parent nor a name makes the whole
    listing fail with [AttributeError], handed to the decorator: the
    stacks found before it are not returned.  A nested stack may lack its
    name without harm. *)
Theorem list_pcluster_stacks_nameless_stack (before after : list Stack) (stack : Stack) :
  (forall s, In s before -> s !! "ParentId" = None -> is_Some (s !! "StackName")) ->
  stack !! "ParentId" = None -> stack !! "StackName" = None ->
  list_pcluster_stacks PCLUSTER_STACK_PREFIX handle_client_exception
    (before ++ stack :: after)
  = handle_client_exception
      (Raise (AttributeError "'NoneType' object has no attribute 'startswith'")).
Proof.
  intros Hnames Hparent Hname. unfold list_pcluster_stacks.
  now rewrite comprehension_raises.
Qed.

End ListStacksFurther.

Lemma list_pcluster_stacks_nameless_stack_witness :
  Cfn.list_pcluster_stacks "parallelcluster-" Samples.relabel_client_error
    [Samples.cluster_stack; Samples.nameless_nested_stack; Samples.nameless_stack;
     Samples.cluster_stack]
  = Raise (AttributeError "'NoneType' object has no attribute 'startswith'").
Proof.
  apply (list_pcluster_stacks_nameless_stack "parallelcluster-"
           Samples.relabel_client_error
           [Samples.cluster_stack; Samples.nameless_nested_stack]
           [Samples.cluster_stack] Samples.nameless_stack).
  - intros s Hin Hparent. simpl in Hin. destruct Hin as [<-|[<-|[]]].
    + vm_compute. eauto.
    + vm_compute in Hparent. discriminate.
  - reflexivity.
  - reflexivity.
Defined.

Section DescribeStack.

Import Cfn.

Variable describe_stacks : string -> result DescribeStacksResponse.
Variable StackNotFoundError_str : string -> string -> string.
Variable fault_str : exn -> string.
Variable handle_describe : result Stack -> result Stack.

(** The decorator hands a normal return and a [StackNotFoundError]
    through unchanged. *)
Hypothesis handle_returns : forall stack, handle_describe (Ok stack) = Ok stack.
Hypothesis handle_not_found :
  forall function_name stack_name,
    handle_describe (Raise (StackNotFoundError StackNotFoundError_str
                              function_name stack_name))
    = Raise (StackNotFoundError StackNotFoundError_str function_name stack_name).

Variable stack_name : string.

Let exists_ :=
  stack_exists describe_stacks StackNotFoundError_str handle_describe fault_str stack_name.

(** [stack_exists] answers [True] as soon as the service describes at least
    one stack (the first one is the one [describe_stack] returns), and
    [False] for a fault of any class derived from [Exception] whose text
    contains "Stack with id <name> does not exist", be it raised by the
    service or by the indexing of its answer. *)
Theorem stack_exists_answers :
  (forall stack others,
      describe_stacks stack_name = Ok {| Stacks := Some (stack :: others) |} ->
      describe_stack describe_stacks StackNotFoundError_str handle_describe fault_str
        stack_name = Ok stack
      /\ exists_ = Ok true) /\
  (forall e,
      Py.result_bind (describe_stacks stack_name) first_stack = Raise e ->
      Py.is_Exception e = true ->
      Py.contains (does_not_exist_text stack_name) (fault_str e) = true ->
      exists_ = Ok false).
Proof.
  subst exists_. unfold stack_exists, describe_stack, describe_stack_body. split.
  - intros stack others ->. cbn [Py.result_bind first_stack Stacks].
    rewrite handle_returns. split; reflexivity.
  - intros e -> -> ->. rewrite handle_not_found.
    unfold StackNotFoundError, is_StackNotFoundError. reflexivity.
Qed.

(** A fault that [describe_stack] does not turn into [StackNotFoundError]
    reaches the decorator as it was raised: one whose text lacks the
    phrase, or one outside the [Exception] hierarchy.  So does the
    [IndexError] of an answer with an empty list of stacks. *)
Theorem describe_stack_reraises :
  (forall e,
      Py.result_bind (describe_stacks stack_name) first_stack = Raise e ->
      Py.is_Exception e = false
      \/ Py.contains (does_not_exist_text stack_name) (fault_str e) = false ->
      describe_stack describe_stacks StackNotFoundError_str handle_describe fault_str
        stack_name = handle_describe (Raise e)) /\
  (describe_stacks stack_name = Ok {| Stacks := Some [] |} ->
   Py.contains (does_not_exist_text stack_name)
     (fault_str (OtherException "IndexError" "list index out of range")) = false ->
   describe_stack describe_stacks StackNotFoundError_str handle_describe fault_str
     stack_name
   = handle_describe (Raise (OtherException "IndexError" "list index out of range"))).
Proof.
  unfold describe_stack, describe_stack_body. split.
  - intros e -> [-> | Hlacks]; [reflexivity|].
    rewrite Hlacks. now destruct (Py.is_Exception e).
  - intros -> Hlacks. cbn [Py.result_bind first_stack Stacks Py.is_Exception].
    now rewrite Hlacks.
Qed.

End DescribeStack.

Lemma stack_exists_answers_witness :
  Cfn.stack_exists Samples.one_stack_service Samples.stack_not_found_str
    Samples.transparent_decorator Py.exn_str "parallelcluster-hpc" = Ok true
  /\ Cfn.stack_exists Samples.one_stack_service Samples.stack_not_found_str
       Samples.transparent_decorator Py.exn_str "parallelcluster-gone" = Ok false.
Proof.
  split.
  - destruct (stack_exists_answers Samples.one_stack_service Samples.stack_not_found_str
                Py.exn_str Samples.transparent_decorator ltac:(reflexivity)
                ltac:(reflexivity) "parallelcluster-hpc") as [Hfound _].
    destruct (Hfound Samples.cluster_stack [] eq_refl) as [_ Htrue]. exact Htrue.
  - destruct (stack_exists_answers Samples.one_stack_service Samples.stack_not_found_str
                Py.exn_str Samples.transparent_decorator ltac:(reflexivity)
                ltac:(reflexivity) "parallelcluster-gone") as [_ Hgone].
    eapply Hgone; [reflexivity|reflexivity|vm_compute; reflexivity].
Defined.

Lemma describe_stack_reraises_witness :
  Cfn.describe_stack Samples.no_stack_service Samples.stack_not_found_str
    Samples.transparent_decorator Py.exn_str "parallelcluster-hpc"
  = Raise (OtherException "IndexError" "list index out of range")
  /\ Cfn.describe_stack Samples.interrupted_service Samples.stack_not_found_str
       Samples.transparent_decorator Py.exn_str "parallelcluster-hpc"
     = Raise (BaseException "KeyboardInterrupt").
Proof.
  split.
  - destruct (describe_stack_reraises Samples.no_stack_service
                Samples.stack_not_found_str Py.exn_str Samples.transparent_decorator
                "parallelcluster-hpc") as [_ Hempty].
    apply Hempty; [reflexivity|vm_compute; reflexivity].
  - destruct (describe_stack_reraises Samples.interrupted_service
                Samples.stack_not_found_str Py.exn_str Samples.transparent_decorator
                "parallelcluster-hpc") as [Hreraise _].
    apply (Hreraise (BaseException "KeyboardInterrupt")); [reflexivity|].
    left. reflexivity.
Defined.

(** ** [ComponentSchema.validate_component_value] *)

Section ComponentValue.

Import ImagebuilderSchema.

Variable get_url_scheme : option string -> string.
Variable data : gmap string string.

(** For a component of type arn the value is checked by its first three
    letters only: every value that starts with [arn] is valid, every other
    one is rejected with the message that quotes it, under the field name
    [Value].  A component of type arn that has no value does not get a
    validation error: the check itself fails with [AttributeError]. *)
Theorem component_arn_checked_by_prefix :
  data !! "type" = Some "arn" ->
  (forall value,
      data !! "value" = Some value ->
      validate_component_value get_url_scheme data
      = if String.prefix "arn" value then Valid
        else Invalid
               ("The Type in Component is arn, the value '" +:+ value
                  +:+ "' is invalid. Choose a value with 'arn' prefix.")
               (Some "Value")) /\
  (data !! "value" = None ->
   validate_component_value get_url_scheme data
   = Fault (AttributeError "'NoneType' object has no attribute 'startswith'")).
Proof.
  intros Htype. unfold validate_component_value. rewrite Htype. split.
  - intros value ->. cbn [bool_decide decide_rel]. unfold Py.startswith.
    rewrite bool_decide_eq_true_2 by reflexivity.
    destruct (String.prefix "arn" value); [|reflexivity]. cbn [negb].
    rewrite bool_decide_eq_false_2 by discriminate. reflexivity.
  - intros ->. rewrite bool_decide_eq_true_2 by reflexivity. reflexivity.
Qed.

(** For a component of type script the scheme of the value decides, and
    only https and s3 are valid: a file URL is rejected here.  A missing
    value is judged by the scheme the helper reports for it and quoted as
    [None].  A component of any other type, or of no type, is never
    rejected, whatever its value. *)
Theorem component_script_checked_by_scheme :
  (data !! "type" = Some "script" ->
   validate_component_value get_url_scheme data
   = if bool_decide (get_url_scheme (data !! "value") = "https"
                     \/ get_url_scheme (data !! "value") = "s3")
     then Valid
     else Invalid
            ("The Type in Component is script, the value '"
               +:+ default "None" (data !! "value")
               +:+ "' is invalid. Choose a value with 'https' or 's3' prefix url.")
            (Some "Value")) /\
  (data !! "type" <> Some "arn" -> data !! "type" <> Some "script" ->
   validate_component_value get_url_scheme data = Valid).
Proof.
  unfold validate_component_value. split.
  - intros ->. rewrite bool_decide_eq_false_2 by discriminate.
    rewrite bool_decide_eq_true_2 by reflexivity. cbn [andb].
    case_bool_decide as Hin; case_bool_decide as Hor; try reflexivity; exfalso.
    + apply Hor. rewrite !elem_of_cons, elem_of_nil in Hin. tauto.
    + apply Hin. rewrite !elem_of_cons, elem_of_nil. tauto.
  - intros Harn Hscript.
    rewrite bool_decide_eq_false_2 by exact Harn.
    rewrite bool_decide_eq_false_2 by exact Hscript. reflexivity.
Qed.

End ComponentValue.

Lemma component_arn_checked_by_prefix_witness :
  ImagebuilderSchema.validate_component_value (Samples.scheme_of_value)
    Samples.arnold_component = ImagebuilderSchema.Valid
  /\ ImagebuilderSchema.validate_component_value (Samples.scheme_of_value)
       Samples.valueless_arn_component
     = ImagebuilderSchema.Fault
         (AttributeError "'NoneType' object has no attribute 'startswith'").
Proof.
  split.
  - destruct (component_arn_checked_by_prefix Samples.scheme_of_value
                Samples.arnold_component ltac:(vm_compute; reflexivity))
      as [Hvalue _].
    exact (Hvalue "arnold" ltac:(vm_compute; reflexivity)).
  - destruct (component_arn_checked_by_prefix Samples.scheme_of_value
                Samples.valueless_arn_component ltac:(vm_compute; reflexivity)) as [_ Hmissing].
    exact (Hmissing ltac:(vm_compute; reflexivity)).
Defined.

Lemma component_script_checked_by_scheme_witness :
  ImagebuilderSchema.validate_component_value (Samples.scheme_of_value)
    Samples.file_script_component
  = ImagebuilderSchema.Invalid
      "The Type in Component is script, the value 'file:///opt/install.sh' is invalid. Choose a value with 'https' or 's3' prefix url."
      (Some "Value")
  /\ ImagebuilderSchema.validate_component_value (Samples.scheme_of_value)
       Samples.yaml_component
     = ImagebuilderSchema.Valid.
Proof.
  split.
  - destruct (component_script_checked_by_scheme Samples.scheme_of_value
                Samples.file_script_component)
      as [Hscript _].
    exact (Hscript ltac:(vm_compute; reflexivity)).
  - destruct (component_script_checked_by_scheme Samples.scheme_of_value
                Samples.yaml_component) as [_ Hother].
    apply Hother; vm_compute; discriminate.
Defined.

(** ** Patterns of the schema fields *)

Lemma exec_lits_only (w : string) :
  forall s st, matched (Re.exec (Re.lits w) s st) = String.prefix w s.
Proof.
  induction w as [|c w IH]; intros s st.
  - now destruct s.
  - cbn [Re.lits Re.exec]. destruct s as [|b s]; [reflexivity|].
    rewrite prefix_cons. cbn [Re.accepts].
    destruct (Ascii.eqb b c); [apply IH|reflexivity].
Qed.

(** The pattern of [parent_image] accepts exactly the values that start
    with [ami] or with [arn]: the second alternative carries no anchor of
    its own, but matching starts at the beginning of the value for both.
    Nothing is required of what follows the three letters. *)
Theorem parent_image_accepts_by_prefix (value : string) :
  matched (ImagebuilderSchema.parent_image_match value)
  = String.prefix "ami" value || String.prefix "arn" value.
Proof.
  unfold ImagebuilderSchema.parent_image_match, Re.match_,
    ImagebuilderSchema.parent_image_ami, ImagebuilderSchema.parent_image_arn.
  cbn [Re.exec Re.start Re.consumed String.eqb].
  pose proof (exec_lits_only "ami" value Re.start) as Hami.
  pose proof (exec_lits_only "arn" value Re.start) as Harn.
  destruct (Re.exec (Re.lits "ami") value Re.start);
    rewrite <- Hami; [reflexivity|]. exact Harn.
Qed.

Lemma prefix_iff_app (w s : string) :
  String.prefix w s = true <-> exists t, s = w +:+ t.
Proof.
  revert s. induction w as [|c w IH]; intros s.
  - split; [intros _; now exists s|now destruct s].
  - destruct s as [|b s].
    + split; [discriminate|intros [t Ht]; discriminate].
    + rewrite prefix_cons, andb_true_iff, IH. split.
      * intros [Hb [t ->]]. apply Ascii.eqb_eq in Hb as ->. now exists t.
      * intros [t Ht]. change (String c w +:+ t) with (String c (w +:+ t)) in Ht.
        injection Ht as -> ->. split; [apply Ascii.eqb_refl|now exists t].
Qed.

(** A run of literals matches by consuming exactly these characters. *)
Lemma exec_lits_iff (w : string) (p : Re.pattern) :
  forall s st,
    matched (Re.exec (Re.lits w ++ p) s st) = true <->
    exists r, s = w +:+ r /\ matched (Re.exec p r (advance w st)) = true.
Proof.
  induction w as [|c w IH]; intros s st.
  - cbn [Re.lits app]. rewrite advance_nil. split.
    + intros Hm. now exists s.
    + intros (r & -> & Hm). exact Hm.
  - cbn [Re.lits app Re.exec]. destruct s as [|b s].
    + split; [discriminate|intros (r & Hr & _); discriminate].
    + cbn [Re.accepts]. destruct (Ascii.eqb_spec b c) as [->|Hne].
      * rewrite IH. split.
        -- intros (r & -> & Hm). exists r. split; [reflexivity|].
           now rewrite <- advance_take.
        -- intros (r & Hr & Hm).
           change (String c w +:+ r) with (String c (w +:+ r)) in Hr.
           injection Hr as ->. exists r. split; [reflexivity|].
           now rewrite advance_take.
      * split; [discriminate|]. intros (r & Hr & _).
        change (String c w +:+ r) with (String c (w +:+ r)) in Hr.
        injection Hr as Hb _. contradiction.
Qed.

(** A greedy repetition of [.] matches when what follows it matches after
    some stretch of the current line. *)
Lemma greedy_star_iff (k : string -> Re.state -> option Re.Match) :
  forall s st,
    matched (Re.star true Re.Dot k s st) = true <->
    exists u v,
      s = u +:+ v /\ free_of Re.newline u = true /\
      matched (k v (advance u st)) = true.
Proof.
  induction s as [|c s IH]; intros st.
  - rewrite star_nil. split.
    + intros Hm. exists "", "". now rewrite advance_nil.
    + intros (u & v & Huv & _ & Hm). destruct u; [|discriminate].
      change ("" +:+ v) with v in Huv. subst v. now rewrite advance_nil in Hm.
  - rewrite star_greedy_cons. cbn [Re.accepts]. split.
    + intros Hm. destruct (negb (Ascii.eqb c Re.newline)) eqn:Hc.
      * destruct (Re.star true Re.Dot k s (Re.take c st)) as [m|] eqn:Hstar.
        -- assert (Hs : matched (Re.star true Re.Dot k s (Re.take c st)) = true)
             by now rewrite Hstar.
           apply IH in Hs as (u & v & -> & Hu & Hk).
           exists (String c u), v. split; [reflexivity|]. split.
           ++ simpl. now rewrite Hc.
           ++ now rewrite <- advance_take.
        -- exists "", (String c s). now rewrite advance_nil.
      * exists "", (String c s). now rewrite advance_nil.
    + intros (u & v & Huv & Hu & Hk). destruct u as [|b u].
      * change ("" +:+ v) with v in Huv. subst v. rewrite advance_nil in Hk.
        destruct (if negb (Ascii.eqb c Re.newline)
                  then Re.star true Re.Dot k s (Re.take c st) else None);
          [reflexivity|exact Hk].
      * change (String b u +:+ v) with (String b (u +:+ v)) in Huv.
        injection Huv as -> ->. simpl in Hu.
        apply andb_true_iff in Hu as [Hc Hu]. rewrite Hc.
        assert (Hs : matched (Re.star true Re.Dot k (u +:+ v) (Re.take b st)) = true).
        { apply IH. exists u, v. split; [reflexivity|]. split; [exact Hu|].
          now rewrite advance_take. }
        destruct (Re.star true Re.Dot k (u +:+ v) (Re.take b st));
          [reflexivity|discriminate].
Qed.

(** The pattern of [cleanup_lambda_role] accepts exactly the values that
    start with [arn:] and have [:role/] after it on the first line;
    whatever follows [:role/] is not looked at, and nothing is required
    between the two. *)
Theorem cleanup_lambda_role_accepts (value : string) :
  matched (Re.match_ ImagebuilderSchema.cleanup_lambda_role_re value) = true <->
  exists middle tail,
    value = "arn:" +:+ middle +:+ ":role/" +:+ tail /\
    free_of Re.newline middle = true.
Proof.
  unfold Re.match_, ImagebuilderSchema.cleanup_lambda_role_re.
  cbn [Re.exec Re.start Re.consumed String.eqb].
  rewrite exec_lits_iff. split.
  - intros (r & -> & Hm). cbn [Re.exec] in Hm.
    apply greedy_star_iff in Hm as (u & v & -> & Hu & Hk).
    rewrite exec_lits_only in Hk. apply prefix_iff_app in Hk as [tail ->].
    now exists u, tail.
  - intros (middle & tail & -> & Hfree). exists (middle +:+ ":role/" +:+ tail).
    split; [reflexivity|]. cbn [Re.exec]. apply greedy_star_iff.
    exists middle, (":role/" +:+ tail). split; [reflexivity|]. split; [exact Hfree|].
    rewrite exec_lits_only. apply prefix_iff_app. now exists tail.
Qed.

Lemma cleanup_lambda_role_accepts_witness :
  matched (Re.match_ ImagebuilderSchema.cleanup_lambda_role_re
             "arn:aws:iam::123456789012:role/cleanup")
  = true.
Proof.
  apply cleanup_lambda_role_accepts.
  exists "aws:iam::123456789012", "cleanup". split; reflexivity.
Defined.

Lemma throughput_iops_raises_iff_witness :
  exists e,
    outcome (execute (EbsValidators.EbsVolumeThroughputIopsValidator_validate
                        Samples.float_repr (Samples.volume_type "gp3")
                        (Samples.volume_iops 0) (Samples.volume_throughput (Some 125))))
    = Raise e.
Proof.
  apply (throughput_iops_raises_iff Samples.float_repr (Samples.volume_type "gp3")
           (Samples.volume_iops 0) (Samples.volume_throughput (Some 125))).
  - unfold exact_float. simpl. lia.
  - intros n Hn. injection Hn as <-. unfold exact_float. simpl. lia.
  - split; [reflexivity|]. split; [reflexivity|].
    exists 125. split; [reflexivity|lia].
Defined.
